(** * Student Performance Index (SPI): the scoring engine of the dashboard

    A shallow embedding of [calculate_student_performance_index] and of the
    risk overview loop of [main.py].

    Modelling conventions.
    - A DataFrame is the list of its rows, in row order; a row is a record
      with one field per column the engine reads.
    - Numbers are rationals ([Q]) and no column holds a missing value.
      Equalities between computed numbers are stated with [==] (equality
      of rationals).
    - The engine is given twice.  [calculate_student_performance_index]
      computes in exact arithmetic; the statements made of it are about the
      formula, its bounds and its classification.  [spi_with] is the same
      code with every operation followed by the rounding of an arithmetic
      [R : Rounding]; its instance [binary64] rounds to the nearest double
      as the script does, its instance [exact] is the exact engine.  What
      depends on a threshold being crossed (the penalties, the insights,
      the trend label) is stated of [spi_with] for every [R], in terms of
      the means the engine itself computes.
    - [Series.mean] of an empty column is NaN in pandas; here it is [0 / 0],
      which [Q] evaluates to [0].  Every statement below is therefore made
      for a non-empty record set only.
    - [groupby(col)[...].mean()] is the Series of the group means indexed by
      the distinct keys in ascending key order, modelled as an association
      list sorted on its keys. *)

From Stdlib Require Import String QArith Qminmax Qpower Lqa ZArith List Bool.
From Stdlib Require Import Lia.
From Stdlib Require Import Permutation Sorted Orders OrdersEx.
Import ListNotations.

Open Scope Q_scope.

(** ** Rows and frames *)

Record Row : Type := mkRow {
  student_id : Z;
  student_name : string;
  class_level : string;
  course_name : string;
  assessment_no : Z;
  assessment_score : Q;
  attendance_rate : Q;
  raised_hand_count : Q
}.

Definition DataFrame : Type := list Row.

(** ** Python's comparison, [min] and [max] on numbers *)

(** [x < y] *)
Definition Qltb (x y : Q) : bool := negb (Qle_bool y x).

(** [x >= y] *)
Definition Qgeb (x y : Q) : bool := Qle_bool y x.

(** [min(a, b)]: the first argument is kept unless the second is strictly
    smaller. *)
Definition py_min (a b : Q) : Q := if Qltb b a then b else a.

(** [max(a, b)]: the first argument is kept unless the second is strictly
    larger. *)
Definition py_max (a b : Q) : Q := if Qltb a b then b else a.

(** ** Series *)

Module Series.

Definition sum (l : list Q) : Q := fold_right Qplus 0 l.

(** [Series.mean()] *)
Definition mean (l : list Q) : Q := sum l / inject_Z (Z.of_nat (length l)).

(** [Series.iloc[0]] and [Series.iloc[-1]] on a Series indexed by [K]. *)
Definition iloc_first {K : Type} (s : list (K * Q)) : Q :=
  match s with
  | [] => 0
  | (_, v) :: _ => v
  end.

Fixpoint iloc_last {K : Type} (s : list (K * Q)) : Q :=
  match s with
  | [] => 0
  | [(_, v)] => v
  | _ :: t => iloc_last t
  end.

(** [(s < x).sum()]: how many entries of the Series are strictly below
    [x]. *)
Definition count_below {K : Type} (s : list (K * Q)) (x : Q) : nat :=
  length (filter (fun kv => Qltb (snd kv) x) s).

End Series.

(** ** groupby *)

Section GroupBy.

Context {K : Type} (cmp : K -> K -> comparison).

Definition key_eqb (a b : K) : bool :=
  match cmp a b with
  | Eq => true
  | _ => false
  end.

(** Insertion of a key in an ascending list of distinct keys. *)
Fixpoint insert_key (k : K) (l : list K) : list K :=
  match l with
  | [] => [k]
  | x :: t =>
      match cmp k x with
      | Lt => k :: l
      | Eq => l
      | Gt => x :: insert_key k t
      end
  end.

(** The index of a groupby: the distinct keys, ascending. *)
Definition group_keys (ks : list K) : list K := fold_right insert_key [] ks.

(** The rows of one group, in frame order. *)
Definition get_group (key : Row -> K) (k : K) (df : DataFrame) : DataFrame :=
  filter (fun r => key_eqb (key r) k) df.

(** [df.groupby(key)[col].mean()] *)
Definition groupby_mean (key : Row -> K) (col : Row -> Q) (df : DataFrame)
  : list (K * Q) :=
  map (fun k => (k, Series.mean (map col (get_group key k df))))
      (group_keys (map key df)).

End GroupBy.

(** ** The SPI engine *)

Record Details : Type := mkDetails {
  base_spi : Q;
  academic_component : Q;
  attendance_component : Q;
  engagement_component : Q;
  failure_penalty : Z;
  trend_penalty : Z;
  failed_courses : nat;
  performance_trend : Q;
  normalized_engagement : Q
}.

(** Penalty 1, the [if failed_courses == 1 ... elif ... else] block. *)
Definition failure_penalty_of (failed_courses : nat) : Z :=
  if (failed_courses =? 1)%nat then 5%Z
  else if (2 <=? failed_courses)%nat then 10%Z
  else 0%Z.

(** Penalty 2, the block on [assessment_scores]; it yields
    [(trend_penalty, performance_change)]. *)
Definition trend_of (assessment_scores : list (Z * Q)) : Z * Q :=
  if (2 <=? length assessment_scores)%nat then
    let first_avg := Series.iloc_first assessment_scores in
    let last_avg := Series.iloc_last assessment_scores in
    let performance_change := last_avg - first_avg in
    if Qltb performance_change (-10) then (5%Z, performance_change)
    else (0%Z, performance_change)
  else (0%Z, 0).

(** Classification based on SPI: [(status, status_color)]. *)
Definition classify (spi_score : Q) : string * string :=
  if Qgeb spi_score 80 then ("EXCELLENT", "#2E7D32")%string
  else if Qgeb spi_score 65 then ("SATISFACTORY", "#F57C00")%string
  else if Qgeb spi_score 50 then ("AT RISK", "#EF6C00")%string
  else ("CRITICAL", "#C62828")%string.

Definition calculate_student_performance_index
    (student_data : DataFrame) (passing_score : Q)
  : Q * string * string * Details :=
  let avg_score := Series.mean (map assessment_score student_data) in
  let academic_component := avg_score * 0.60 in
  let avg_attendance := Series.mean (map attendance_rate student_data) in
  let attendance_component := avg_attendance * 0.25 in
  let avg_engagement := Series.mean (map raised_hand_count student_data) in
  let normalized_engagement := py_min (avg_engagement / 30 * 100) 100 in
  let engagement_component := normalized_engagement * 0.15 in
  let base_spi :=
    academic_component + attendance_component + engagement_component in
  let courses_performance :=
    groupby_mean String_as_OT.compare course_name assessment_score student_data in
  let failed_courses := Series.count_below courses_performance passing_score in
  let failure_penalty := failure_penalty_of failed_courses in
  let assessment_scores :=
    groupby_mean Z.compare assessment_no assessment_score student_data in
  let '(trend_penalty, performance_change) := trend_of assessment_scores in
  let spi_score :=
    base_spi - inject_Z failure_penalty - inject_Z trend_penalty in
  let spi_score := py_max 0 (py_min 100 spi_score) in
  let '(status, status_color) := classify spi_score in
  let details :=
    mkDetails base_spi academic_component attendance_component
              engagement_component failure_penalty trend_penalty
              failed_courses performance_change normalized_engagement in
  (spi_score, status, status_color, details).

(** Names for the four positions of the returned tuple. *)
Definition spi_score (r : Q * string * string * Details) : Q :=
  let '(s, _, _, _) := r in s.
Definition status (r : Q * string * string * Details) : string :=
  let '(_, s, _, _) := r in s.
Definition status_color (r : Q * string * string * Details) : string :=
  let '(_, _, c, _) := r in c.
Definition details (r : Q * string * string * Details) : Details :=
  let '(_, _, _, d) := r in d.

(** ** Risk overview: the loop over the students *)

Record SpiEntry : Type := mkSpiEntry {
  entry_student_id : Z;
  entry_spi_score : Q;
  entry_status : string;
  entry_status_color : string;
  at_risk : bool
}.

(** [Series.isin(values)] on one cell. *)
Definition isin (values : list string) (s : string) : bool :=
  existsb (String.eqb s) values.

(** [df[df['student_id'] == student_id]] *)
Definition rows_of_student (df : DataFrame) (sid : Z) : DataFrame :=
  filter (fun r => (student_id r =? sid)%Z) df.

(** The loop building [spi_results], merged with the [at_risk] column. *)
Definition risk_overview (df : DataFrame) (PASSING_SCORE : Q) : list SpiEntry :=
  map (fun sid =>
         let student_data := rows_of_student df sid in
         let r := calculate_student_performance_index student_data PASSING_SCORE in
         mkSpiEntry sid (spi_score r) (status r) (status_color r)
                    (isin ["AT RISK"; "CRITICAL"]%string (status r)))
      (group_keys Z.compare (map student_id df)).

(** ** Specification-side vocabulary

    The quantities the statements below speak about, written directly on
    the rows and independently of the groupby machinery. *)

(** Mean [assessment_score] of the rows of one assessment number. *)
Definition assessment_mean (df : DataFrame) (n : Z) : Q :=
  Series.mean
    (map assessment_score (filter (fun r => (assessment_no r =? n)%Z) df)).


(** Every [assessment_score] raised by the constant [c]. *)
Definition raise_scores (c : Q) (df : DataFrame) : DataFrame :=
  map (fun r =>
         mkRow (student_id r) (student_name r) (class_level r) (course_name r)
               (assessment_no r) (assessment_score r + c) (attendance_rate r)
               (raised_hand_count r))
      df.

(** [inserted old extra new]: the frame [new] is [old] with the rows of
    [extra] inserted at arbitrary positions. *)
Inductive inserted : DataFrame -> DataFrame -> DataFrame -> Prop :=
| inserted_nil : inserted [] [] []
| inserted_keep r old extra new :
    inserted old extra new -> inserted (r :: old) extra (r :: new)
| inserted_add r old extra new :
    inserted old extra new -> inserted old (r :: extra) (r :: new).

(** The final score before clamping, from a returned breakdown. *)
Definition penalised (d : Details) : Q :=
  base_spi d - inject_Z (failure_penalty d) - inject_Z (trend_penalty d).

(** ** Sample frames *)

(** One course, two assessments at 90, full attendance, 30 raised hands. *)
Definition scenario_rows : DataFrame :=
  [ mkRow 1 "Amal" "C1" "Math" 1 90 100 30;
    mkRow 1 "Amal" "C1" "Math" 2 90 100 30 ].

(** Every score 0 and a raised-hand mean of 1000. *)
Definition pathological_rows : DataFrame :=
  [ mkRow 2 "Basil" "C2" "Math" 1 0 100 1000;
    mkRow 2 "Basil" "C2" "Physics" 2 0 100 1000 ].

(** One failing course (mean 40), one passing course (mean 90). *)
Definition one_failure_rows : DataFrame :=
  [ mkRow 3 "Carla" "C1" "Math" 1 30 50 0;
    mkRow 3 "Carla" "C1" "Physics" 1 90 50 0;
    mkRow 3 "Carla" "C1" "Math" 2 50 50 0;
    mkRow 3 "Carla" "C1" "Physics" 2 90 50 0 ].

(** Assessment numbers 1, 2, 3 with means 80, 85, 60; the rows are not in
    assessment order. *)
Definition declining_rows : DataFrame :=
  [ mkRow 4 "Dana" "C3" "Math" 3 60 90 10;
    mkRow 4 "Dana" "C3" "Math" 1 80 90 10;
    mkRow 4 "Dana" "C3" "Math" 2 85 90 10 ].

(** Two sharply lower rows for assessment number 2. *)
Definition middle_dip_rows : DataFrame :=
  [ mkRow 4 "Dana" "C3" "Physics" 2 5 90 10;
    mkRow 4 "Dana" "C3" "Math" 2 0 90 10 ].

(** [declining_rows] with the rows of [middle_dip_rows] inserted. *)
Definition declining_with_dip_rows : DataFrame :=
  [ mkRow 4 "Dana" "C3" "Physics" 2 5 90 10;
    mkRow 4 "Dana" "C3" "Math" 3 60 90 10;
    mkRow 4 "Dana" "C3" "Math" 1 80 90 10;
    mkRow 4 "Dana" "C3" "Math" 2 0 90 10;
    mkRow 4 "Dana" "C3" "Math" 2 85 90 10 ].

(** A cohort of three students. *)
Definition cohort_rows : DataFrame :=
  scenario_rows ++ one_failure_rows ++ declining_rows.

(** ** The engine in rounded arithmetic

    The script computes in binary64: every operation is the exact one
    followed by a rounding, and a decimal literal stands for its rounded
    value.  [Rounding] holds that rounding together with the two means the
    engine takes, whose order of summation belongs to pandas and not to
    this script.  Comparisons are exact.  A statement made for every
    [Rounding] holds of the exact engine above and of the engine in
    binary64 alike. *)

Record Rounding : Type := mkRounding {
  rnd : Q -> Q;
  (** [Series.mean()] *)
  series_mean : list Q -> Q;
  (** the mean of one group of [groupby(...)[...].mean()] *)
  group_mean : list Q -> Q
}.

(** No rounding at all: the arithmetic of the exact engine. *)
Definition exact : Rounding :=
  mkRounding (fun x => x) Series.mean Series.mean.

(** Nearest integer to [n / d], ties to even, for [0 <= n] and [0 < d]. *)
Definition div_half_even (n d : Z) : Z :=
  let q := (n / d)%Z in
  let r := (n mod d)%Z in
  match (2 * r ?= d)%Z with
  | Lt => q
  | Gt => (q + 1)%Z
  | Eq => if Z.even q then q else (q + 1)%Z
  end.

(** [floor (log2 (n / d))], for [0 < n] and [0 < d]. *)
Definition floor_log2_ratio (n d : Z) : Z :=
  let k := (Z.log2 n - Z.log2 d)%Z in
  let above :=
    if (0 <=? k)%Z then (d * 2 ^ k <=? n)%Z else (d <=? n * 2 ^ (- k))%Z in
  if above then k else (k - 1)%Z.

(** The binary64 number nearest to [n / d], ties to even: a significand of
    53 bits.  Subnormal numbers and overflow are left out. *)
Definition round_pos (n d : Z) : Q :=
  let e := (floor_log2_ratio n d - 52)%Z in
  if (0 <=? e)%Z
  then inject_Z (div_half_even n (d * 2 ^ e) * 2 ^ e)
  else Qmake (div_half_even (n * 2 ^ (- e)) d) (Z.to_pos (2 ^ (- e))).

Definition round64 (x : Q) : Q :=
  match Qnum x with
  | Z0 => 0
  | Zpos n => round_pos (Zpos n) (Zpos (Qden x))
  | Zneg n => - round_pos (Zpos n) (Zpos (Qden x))
  end.


(** [Series.mean()]: sum from left to right, then divide.  This is the
    order of summation on a column of fewer than eight rows; on a longer
    column numpy adds eight interleaved partial sums. *)
Definition sum64 (l : list Q) : Q :=
  fold_left (fun acc x => round64 (acc + x)) l 0.

Definition mean64 (l : list Q) : Q :=
  round64 (sum64 l / inject_Z (Z.of_nat (length l))).

(** Compensated (Kahan) sum, as the mean of a group is accumulated: the
    running sum [sumx] and its compensation. *)
Fixpoint kahan64 (l : list Q) (sumx compensation : Q) : Q :=
  match l with
  | [] => sumx
  | val :: l' =>
      let y := round64 (val - compensation) in
      let t := round64 (sumx + y) in
      kahan64 l' t (round64 (round64 (t - sumx) - y))
  end.

Definition group_mean64 (l : list Q) : Q :=
  round64 (kahan64 l 0 0 / inject_Z (Z.of_nat (length l))).

(** Binary64, round to nearest. *)
Definition binary64 : Rounding := mkRounding round64 mean64 group_mean64.

(** [df.groupby(key)[col].mean()] with the mean of a group given. *)
Definition groupby_agg {K : Type} (agg : list Q -> Q)
    (cmp : K -> K -> comparison) (key : Row -> K) (col : Row -> Q)
    (df : DataFrame) : list (K * Q) :=
  map (fun k => (k, agg (map col (get_group cmp key k df))))
      (group_keys cmp (map key df)).

(** Penalty 2 with the subtraction rounded. *)
Definition trend_with (R : Rounding) (assessment_scores : list (Z * Q))
  : Z * Q :=
  if (2 <=? length assessment_scores)%nat then
    let first_avg := Series.iloc_first assessment_scores in
    let last_avg := Series.iloc_last assessment_scores in
    let performance_change := rnd R (last_avg - first_avg) in
    if Qltb performance_change (-10) then (5%Z, performance_change)
    else (0%Z, performance_change)
  else (0%Z, 0).

(** [calculate_student_performance_index] in the arithmetic [R]. *)
Definition spi_with (R : Rounding)
    (student_data : DataFrame) (passing_score : Q)
  : Q * string * string * Details :=
  let avg_score := series_mean R (map assessment_score student_data) in
  let academic_component := rnd R (avg_score * rnd R 0.60) in
  let avg_attendance := series_mean R (map attendance_rate student_data) in
  let attendance_component := rnd R (avg_attendance * rnd R 0.25) in
  let avg_engagement :=
    series_mean R (map raised_hand_count student_data) in
  let normalized_engagement :=
    py_min (rnd R (rnd R (avg_engagement / 30) * 100)) 100 in
  let engagement_component := rnd R (normalized_engagement * rnd R 0.15) in
  let base_spi :=
    rnd R (rnd R (academic_component + attendance_component)
           + engagement_component) in
  let courses_performance :=
    groupby_agg (group_mean R) String_as_OT.compare course_name
                assessment_score student_data in
  let failed_courses := Series.count_below courses_performance passing_score in
  let failure_penalty := failure_penalty_of failed_courses in
  let assessment_scores :=
    groupby_agg (group_mean R) Z.compare assessment_no assessment_score
                student_data in
  let '(trend_penalty, performance_change) :=
    trend_with R assessment_scores in
  let spi_score :=
    rnd R (rnd R (base_spi - inject_Z failure_penalty)
           - inject_Z trend_penalty) in
  let spi_score := py_max 0 (py_min 100 spi_score) in
  let '(status, status_color) := classify spi_score in
  let details :=
    mkDetails base_spi academic_component attendance_component
              engagement_component failure_penalty trend_penalty
              failed_courses performance_change normalized_engagement in
  (spi_score, status, status_color, details).

(** The scores of the rows of one course, and of one assessment number, in
    row order. *)
Definition course_scores (df : DataFrame) (c : string) : list Q :=
  map assessment_score (filter (fun r => String.eqb (course_name r) c) df).

Definition assessment_scores_of (df : DataFrame) (n : Z) : list Q :=
  map assessment_score (filter (fun r => (assessment_no r =? n)%Z) df).

(** The distinct courses whose mean, as the engine computes it, is strictly
    below the passing score. *)
Definition failing_courses (R : Rounding) (df : DataFrame)
    (passing_score : Q) : list string :=
  filter (fun c => Qltb (group_mean R (course_scores df c)) passing_score)
         (nodup string_dec (map course_name df)).

(** What the monotonicity of the score asks of the arithmetic: rounding is
    monotone and keeps 0, and the mean of a column does not drop when
    every value of the column is raised.  Rounding to nearest has these
    properties ([binary64_monotone]). *)
Record Monotone (R : Rounding) : Prop := mkMonotone {
  rnd_mono : forall x y, x <= y -> rnd R x <= rnd R y;
  rnd_zero : rnd R 0 == 0;
  series_mean_mono :
    forall l l', Forall2 Qle l l' -> series_mean R l <= series_mean R l'
}.




(** ** The dashboard script around the engine *)

(** In a mean or a sum, [True] counts as 1 and [False] as 0. *)
Definition bool_to_Q (b : bool) : Q := if b then 1 else 0.

(** [df['is_passing'] = df['assessment_score'] >= PASSING_SCORE], one cell. *)
Definition is_passing (PASSING_SCORE : Q) (r : Row) : bool :=
  Qgeb (assessment_score r) PASSING_SCORE.

(** [(df.groupby('student_id')['is_passing'].mean() * 100).mean()] *)
Definition pass_rate (df : DataFrame) (PASSING_SCORE : Q) : Q :=
  Series.mean
    (map (fun kv => snd kv * 100)
         (groupby_mean Z.compare student_id
            (fun r => bool_to_Q (is_passing PASSING_SCORE r)) df)).

Definition fail_rate (df : DataFrame) (PASSING_SCORE : Q) : Q :=
  100 - pass_rate df PASSING_SCORE.

(** [pd.cut(x, bins, labels=labels)] on one value, intervals closed on the
    right; [None] is the missing category of a value outside every
    interval.  [cut_from lo edges labels x] looks for the first interval
    [(lo, hi]] that holds [x]. *)
Fixpoint cut_from (lo : Q) (edges : list Q) (labels : list string) (x : Q)
  : option string :=
  match edges, labels with
  | hi :: edges', lab :: labels' =>
      if Qltb lo x && Qle_bool x hi then Some lab
      else cut_from hi edges' labels' x
  | _, _ => None
  end.

(** With [include_lowest] a value equal to the first edge joins the first
    interval. *)
Definition cut (bins : list Q) (labels : list string) (include_lowest : bool)
    (x : Q) : option string :=
  match bins with
  | [] => None
  | b0 :: edges =>
      if include_lowest && Qeq_bool x b0 then hd_error labels
      else cut_from b0 edges labels x
  end.

(** The score histogram. *)
Definition score_labels : list string :=
  ["0-40"; "40-60"; "60-80"; "80-100"]%string.

Definition score_range (x : Q) : option string :=
  cut [0; 40; 60; 80; 100] score_labels true x.

(** [df['score_range'].value_counts().sort_index()]: one count per
    category, in category order, rows without a category left out. *)
Definition score_dist (df : DataFrame) : list (string * nat) :=
  map (fun lab =>
         (lab,
          length
            (filter (fun r =>
                       match score_range (assessment_score r) with
                       | Some l => String.eqb l lab
                       | None => false
                       end)
                    df)))
      score_labels.

(** [df['score_range'].dropna()]: the categories of the rows that have
    one, in row order. *)
Definition score_range_column (df : DataFrame) : list string :=
  flat_map (fun r =>
              match score_range (assessment_score r) with
              | Some l => [l]
              | None => []
              end)
           df.

(** The bins of the attendance and participation charts. *)
Definition attendance_bins (x : Q) : option string :=
  cut [0; 60; 100] ["40-60%"; "80-100%"]%string false x.

Definition participation_bins (x : Q) : option string :=
  cut [0; 15; 30] ["Low (0-15)"; "High (30+)"]%string false x.

(** Assessment progression over the whole frame, and its verdict, in the
    arithmetic [R]. *)
Definition progression (R : Rounding) (df : DataFrame) : list (Z * Q) :=
  groupby_agg (group_mean R) Z.compare assessment_no assessment_score df.

Definition trend (R : Rounding) (df : DataFrame) : string :=
  if Qltb (Series.iloc_first (progression R df))
          (Series.iloc_last (progression R df))
  then "improving"%string
  else "declining"%string.

(** The totals of the risk overview. *)

(** [student_avg['student_id'].nunique()] *)
Definition total_students (student_avg : list SpiEntry) : nat :=
  length (nodup Z.eq_dec (map entry_student_id student_avg)).

(** [student_avg['at_risk'].sum()] *)
Definition at_risk_total (student_avg : list SpiEntry) : nat :=
  length (filter at_risk student_avg).

Definition passing_total (student_avg : list SpiEntry) : Z :=
  (Z.of_nat (total_students student_avg)
   - Z.of_nat (at_risk_total student_avg))%Z.

(** [student_avg[student_avg['status'] == 'CRITICAL']] *)
Definition critical_students (student_avg : list SpiEntry) : list SpiEntry :=
  filter (fun e => String.eqb (entry_status e) "CRITICAL") student_avg.

(** The status pie. *)

(** [Series.value_counts()]: the distinct values with their numbers of
    occurrences.  The script only tests membership in the index and reads
    counts by label, so the order of the counts is left as key order. *)
Definition value_counts (l : list string) : list (string * nat) :=
  map (fun s => (s, count_occ string_dec l s))
      (group_keys String_as_OT.compare l).

(** [d[k]] on a dict or a Series indexed by strings; [None] is a
    [KeyError]. *)
Fixpoint getitem {V : Type} (d : list (string * V)) (k : string) : option V :=
  match d with
  | [] => None
  | (k', v) :: d' => if String.eqb k' k then Some v else getitem d' k
  end.

Definition status_colors_map : list (string * string) :=
  [ ("EXCELLENT", "#2E7D32"); ("SATISFACTORY", "#F57C00");
    ("AT RISK", "#EF6C00"); ("CRITICAL", "#C62828") ]%string.

Definition status_order : list string :=
  ["EXCELLENT"; "SATISFACTORY"; "AT RISK"; "CRITICAL"]%string.

(** [[s for s in status_order if s in status_counts.index]] *)
Definition status_labels (status_counts : list (string * nat)) : list string :=
  filter (fun s => existsb (String.eqb s) (map fst status_counts)) status_order.

(** [[status_counts[s] for s in status_labels]] *)
Definition status_values (status_counts : list (string * nat))
  : list (option nat) :=
  map (getitem status_counts) (status_labels status_counts).

(** [[status_colors_map[s] for s in status_labels]] *)
Definition status_colors (status_counts : list (string * nat))
  : list (option string) :=
  map (getitem status_colors_map) (status_labels status_counts).

(** The student lookup. *)

(** [(s >= x).sum()] on a Series. *)
Definition count_at_least {K : Type} (s : list (K * Q)) (x : Q) : nat :=
  length (filter (fun kv => Qgeb (snd kv) x) s).

Record Lookup : Type := mkLookup {
  lookup_avg_score : Q;
  lookup_avg_attendance : Q;
  lookup_avg_engagement : Q;
  lookup_student_name : string;
  lookup_class_level : string;
  lookup_spi : Q * string * string * Details;
  lookup_passing_courses : nat;
  lookup_total_courses : nat
}.

(** The body of [if selected_option != ...] for a parsed [student_id];
    [None] is the branch of the warning "No student found with ID". *)
Definition student_lookup (df : DataFrame) (PASSING_SCORE : Q) (sid : Z)
  : option Lookup :=
  let student_data := rows_of_student df sid in
  match student_data with
  | [] => None
  | first :: _ =>
      let avg_score := Series.mean (map assessment_score student_data) in
      let avg_attendance := Series.mean (map attendance_rate student_data) in
      let avg_engagement := Series.mean (map raised_hand_count student_data) in
      let courses_performance :=
        groupby_mean String_as_OT.compare course_name assessment_score
                     student_data in
      Some (mkLookup avg_score avg_attendance avg_engagement
              (student_name first) (class_level first)
              (calculate_student_performance_index student_data PASSING_SCORE)
              (count_at_least courses_performance PASSING_SCORE)
              (length courses_performance))
  end.

(** The automated insights of the lookup.  An insight is kept as a tag
    with the values its message is formatted from; the text of the messages
    is left out. *)
Inductive Insight : Type :=
| ExcellentPerformance
| SatisfactoryPerformance
| AtRisk
| CriticalStatus
| StrongAcademics
| GoodAcademicStanding
| BorderlinePerformance
| AcademicEmergency
| ExcellentAttendance
| GoodAttendance
| AttendanceConcern
| PoorAttendance
| HighlyEngaged
| ModerateEngagement
| LowEngagement
| DecliningTrend (dropped_by : Q)
| ImprovingTrend (increased_by : Q)
| FailingCourses (failed_courses : nat) (course_list : string)
| StrongSubjects (course_list : string).

(** [abs(x)] *)
Definition py_abs (x : Q) : Q := if Qltb x 0 then - x else x.

Section Insights.

(** The arithmetic of the script. *)
Variable R : Rounding.

(** [course_performance.sort_values('assessment_score', ascending=False)]:
    pandas leaves the order of equal scores to its sorting algorithm, so
    the sort is a parameter; the statements on the insights ask it to
    permute its argument. *)
Variable sort_values : list (string * Q) -> list (string * Q).

Definition automated_insights (student_data : DataFrame) (PASSING_SCORE : Q)
  : list Insight :=
  let avg_score := series_mean R (map assessment_score student_data) in
  let avg_attendance := series_mean R (map attendance_rate student_data) in
  let r := spi_with R student_data PASSING_SCORE in
  let status := status r in
  let spi_details := details r in
  let course_performance :=
    sort_values
      (groupby_agg (group_mean R) String_as_OT.compare course_name
                   assessment_score student_data) in
  let weak_courses :=
    filter (fun kv => Qltb (snd kv) PASSING_SCORE) course_performance in
  let strong_courses :=
    filter (fun kv => Qgeb (snd kv) 80) course_performance in
  [ if String.eqb status "EXCELLENT" then ExcellentPerformance
    else if String.eqb status "SATISFACTORY" then SatisfactoryPerformance
    else if String.eqb status "AT RISK" then AtRisk
    else CriticalStatus ]
  ++ [ if Qgeb avg_score 80 then StrongAcademics
       else if Qgeb avg_score 70 then GoodAcademicStanding
       else if Qgeb avg_score PASSING_SCORE then BorderlinePerformance
       else AcademicEmergency ]
  ++ [ if Qgeb avg_attendance 90 then ExcellentAttendance
       else if Qgeb avg_attendance 80 then GoodAttendance
       else if Qgeb avg_attendance 70 then AttendanceConcern
       else PoorAttendance ]
  ++ [ if Qgeb (normalized_engagement spi_details) 80 then HighlyEngaged
       else if Qgeb (normalized_engagement spi_details) 50
            then ModerateEngagement
       else LowEngagement ]
  ++ (if (0 <? trend_penalty spi_details)%Z
      then [DecliningTrend (py_abs (performance_trend spi_details))]
      else if Qltb 10 (performance_trend spi_details)
           then [ImprovingTrend (performance_trend spi_details)]
      else [])
  ++ (if (0 <? failed_courses spi_details)%nat
      then [FailingCourses (failed_courses spi_details)
              (String.concat ", " (map fst weak_courses))]
      else [])
  ++ (if (0 <? length strong_courses)%nat
      then [StrongSubjects (String.concat ", " (map fst strong_courses))]
      else []).

End Insights.

(** One sort that orders by descending score. *)
Fixpoint insert_desc (kv : string * Q) (l : list (string * Q))
  : list (string * Q) :=
  match l with
  | [] => [kv]
  | x :: t => if Qltb (snd kv) (snd x) then x :: insert_desc kv t else kv :: l
  end.

Definition sort_values_desc (l : list (string * Q)) : list (string * Q) :=
  fold_right insert_desc [] l.

(** The per-student summary of the risk overview and the class tabs. *)

Record StudentAgg : Type := mkStudentAgg {
  agg_student_id : Z;
  agg_assessment_score : Q;
  agg_attendance_rate : Q;
  agg_raised_hand_count : Q;
  agg_class_level : string;
  agg_student_name : string
}.

(** The aggregation ['first'] on a column of strings of one group. *)
Definition agg_first (col : Row -> string) (group : DataFrame) : string :=
  match group with
  | [] => ""%string
  | r :: _ => col r
  end.

(** [df.groupby('student_id').agg({...}).reset_index()] *)
Definition student_agg (df : DataFrame) : list StudentAgg :=
  map (fun sid =>
         let group := get_group Z.compare student_id sid df in
         mkStudentAgg sid
           (Series.mean (map assessment_score group))
           (Series.mean (map attendance_rate group))
           (Series.mean (map raised_hand_count group))
           (agg_first class_level group)
           (agg_first student_name group))
      (group_keys Z.compare (map student_id df)).

(** [left.merge(right, on='student_id')]: every pair of a left and a right
    row with the same id, in the order of the left rows. *)
Definition merge (left : list StudentAgg) (right : list SpiEntry)
  : list (StudentAgg * SpiEntry) :=
  flat_map (fun a =>
              map (pair a)
                  (filter (fun e =>
                             (entry_student_id e =? agg_student_id a)%Z)
                          right))
           left.

(** [student_avg] after the merge and the [at_risk] column. *)
Definition student_avg_merged (df : DataFrame) (PASSING_SCORE : Q)
  : list (StudentAgg * SpiEntry) :=
  merge (student_agg df) (risk_overview df PASSING_SCORE).

(** [student_avg[student_avg['at_risk']].groupby('class_level').size()] *)
Definition at_risk_by_class (student_avg : list (StudentAgg * SpiEntry))
  : list (string * nat) :=
  let rows := filter (fun row => at_risk (snd row)) student_avg in
  map (fun cl =>
         (cl,
          length
            (filter (fun row => String.eqb (agg_class_level (fst row)) cl)
                    rows)))
      (group_keys String_as_OT.compare
         (map (fun row => agg_class_level (fst row)) rows)).

(** [sorted(student_avg['class_level'].unique())] *)
Definition class_levels (student_avg : list (StudentAgg * SpiEntry))
  : list string :=
  group_keys String_as_OT.compare
    (map (fun row => agg_class_level (fst row)) student_avg).

Section ClassTabs.

(** [.sort_values('spi_score')], a parameter as for the insights. *)
Variable sort_by_spi_score :
  list (StudentAgg * SpiEntry) -> list (StudentAgg * SpiEntry).

(** The students listed in the tab of class [cl]. *)
Definition at_risk_students (student_avg : list (StudentAgg * SpiEntry))
    (cl : string) : list (StudentAgg * SpiEntry) :=
  sort_by_spi_score
    (filter (fun row =>
               String.eqb (agg_class_level (fst row)) cl
               && Bool.eqb (at_risk (snd row)) true)
            student_avg).

End ClassTabs.

(** * Proofs *)

(** ** Comparisons, [min], [max] *)

Lemma Qltb_true x y : Qltb x y = true <-> x < y.
Proof.
  unfold Qltb. rewrite negb_true_iff.
  destruct (Qle_bool y x) eqn:E.
  - apply Qle_bool_iff in E. split; [discriminate | intro; lra].
  - split; [intros _ | reflexivity].
    apply Qnot_le_lt. intro H. apply Qle_bool_iff in H. congruence.
Qed.

Lemma Qltb_false x y : Qltb x y = false <-> y <= x.
Proof.
  unfold Qltb. rewrite negb_false_iff. apply Qle_bool_iff.
Qed.

Lemma Qgeb_true x y : Qgeb x y = true <-> y <= x.
Proof. apply Qle_bool_iff. Qed.

Lemma Qgeb_false x y : Qgeb x y = false <-> x < y.
Proof.
  unfold Qgeb. destruct (Qle_bool y x) eqn:E.
  - apply Qle_bool_iff in E. split; [discriminate | intro; lra].
  - split; [intros _ | reflexivity].
    apply Qnot_le_lt. intro H. apply Qle_bool_iff in H. congruence.
Qed.

Lemma Qltb_compat x x' y y' : x == x' -> y == y' -> Qltb x y = Qltb x' y'.
Proof.
  intros Hx Hy. unfold Qltb. now rewrite Hx, Hy.
Qed.

Ltac case_Qltb a b :=
  let E := fresh "E" in
  destruct (Qltb a b) eqn:E;
  [apply Qltb_true in E | apply Qltb_false in E].

Lemma py_min_Qmin a b : py_min a b == Qmin a b.
Proof.
  unfold py_min. case_Qltb b a.
  - rewrite Q.min_r; [reflexivity | lra].
  - rewrite Q.min_l; [reflexivity | lra].
Qed.

Lemma py_max_Qmax a b : py_max a b == Qmax a b.
Proof.
  unfold py_max. case_Qltb a b.
  - rewrite Q.max_r; [reflexivity | lra].
  - rewrite Q.max_l; [reflexivity | lra].
Qed.

Lemma clamp_range x : 0 <= py_max 0 (py_min 100 x) <= 100.
Proof.
  unfold py_max, py_min.
  case_Qltb x 100; case_Qltb 0 x; try case_Qltb 0 100; lra.
Qed.

Lemma clamp_mono x y : x <= y ->
  py_max 0 (py_min 100 x) <= py_max 0 (py_min 100 y).
Proof.
  intro H. unfold py_max, py_min.
  case_Qltb x 100; case_Qltb y 100;
    repeat match goal with
           | |- context [Qltb ?a ?b] => case_Qltb a b
           end; lra.
Qed.

(** ** The positions of the returned tuple *)

Ltac open_calc :=
  unfold calculate_student_performance_index; cbv zeta;
  repeat match goal with
         | |- context [trend_of ?x] => destruct (trend_of x)
         | |- context [classify ?x] => destruct (classify x)
         end;
  reflexivity.

Lemma base_spi_eq df p :
  base_spi (details (calculate_student_performance_index df p)) =
  Series.mean (map assessment_score df) * 0.60
  + Series.mean (map attendance_rate df) * 0.25
  + py_min (Series.mean (map raised_hand_count df) / 30 * 100) 100 * 0.15.
Proof. open_calc. Qed.

Lemma failed_courses_eq df p :
  failed_courses (details (calculate_student_performance_index df p)) =
  Series.count_below
    (groupby_mean String_as_OT.compare course_name assessment_score df) p.
Proof. open_calc. Qed.

Lemma failure_penalty_eq df p :
  failure_penalty (details (calculate_student_performance_index df p)) =
  failure_penalty_of
    (failed_courses (details (calculate_student_performance_index df p))).
Proof. open_calc. Qed.

Lemma trend_penalty_eq df p :
  trend_penalty (details (calculate_student_performance_index df p)) =
  fst (trend_of (groupby_mean Z.compare assessment_no assessment_score df)).
Proof. open_calc. Qed.

Lemma performance_trend_eq df p :
  performance_trend (details (calculate_student_performance_index df p)) =
  snd (trend_of (groupby_mean Z.compare assessment_no assessment_score df)).
Proof. open_calc. Qed.

Lemma spi_score_eq df p :
  spi_score (calculate_student_performance_index df p) =
  py_max 0 (py_min 100
    (penalised (details (calculate_student_performance_index df p)))).
Proof. open_calc. Qed.

Lemma status_eq df p :
  let r := calculate_student_performance_index df p in
  (status r, status_color r) = classify (spi_score r).
Proof.
  unfold calculate_student_performance_index; cbv zeta.
  destruct (trend_of _).
  match goal with
  | |- context [classify ?x] => destruct (classify x) eqn:E
  end.
  cbn. now rewrite E.
Qed.

(** ** Means *)

Lemma length_pos_Q {A : Type} (l : list A) :
  l <> [] -> 0 < inject_Z (Z.of_nat (length l)).
Proof.
  intro H. destruct l as [|a l]; [congruence|].
  replace 0 with (inject_Z 0) by reflexivity. rewrite <- Zlt_Qlt.
  simpl length. lia.
Qed.

(** ** Facts on groupby, for any key order *)

Section GroupByFacts.

Context {K : Type} (cmp : K -> K -> comparison).
Hypothesis cmp_eq : forall x y, cmp x y = Eq <-> x = y.
Hypothesis cmp_gt : forall x y, cmp x y = Gt -> cmp y x = Lt.
Hypothesis cmp_trans :
  forall x y z, cmp x y = Lt -> cmp y z = Lt -> cmp x z = Lt.

Local Abbreviation klt := (fun x y => cmp x y = Lt).

Lemma key_eqb_true a b : key_eqb cmp a b = true <-> a = b.
Proof.
  unfold key_eqb. rewrite <- cmp_eq.
  destruct (cmp a b); split; congruence.
Qed.

Lemma insert_key_In k l x : In x (insert_key cmp k l) <-> x = k \/ In x l.
Proof.
  induction l as [|a l IH]; simpl.
  - intuition.
  - destruct (cmp k a) eqn:E; simpl.
    + apply cmp_eq in E. subst. intuition.
    + intuition.
    + rewrite IH. intuition.
Qed.

Lemma insert_key_sorted k l :
  StronglySorted klt l -> StronglySorted klt (insert_key cmp k l).
Proof.
  induction 1 as [|a l Hs IH Ha]; simpl.
  - repeat constructor.
  - destruct (cmp k a) eqn:E.
    + now constructor.
    + constructor; [now constructor|].
      constructor; [assumption|].
      rewrite Forall_forall in *. intros x Hx. eauto.
    + constructor; [assumption|].
      rewrite Forall_forall in *. intros x Hx.
      apply insert_key_In in Hx. destruct Hx as [->|Hx]; auto.
Qed.

Lemma group_keys_In ks x : In x (group_keys cmp ks) <-> In x ks.
Proof.
  induction ks as [|k ks IH]; simpl.
  - reflexivity.
  - rewrite insert_key_In, IH. intuition.
Qed.

Lemma group_keys_sorted ks : StronglySorted klt (group_keys cmp ks).
Proof.
  induction ks as [|k ks IH]; simpl.
  - constructor.
  - now apply insert_key_sorted.
Qed.

Lemma sorted_NoDup l : StronglySorted klt l -> NoDup l.
Proof.
  induction 1 as [|a l Hs IH Ha]; constructor; [|assumption].
  intro Hin. rewrite Forall_forall in Ha. specialize (Ha a Hin).
  assert (cmp a a = Eq) by now apply cmp_eq. congruence.
Qed.

Lemma group_keys_NoDup ks : NoDup (group_keys cmp ks).
Proof. apply sorted_NoDup, group_keys_sorted. Qed.

Lemma group_keys_nodup (dec : forall x y : K, {x = y} + {x <> y}) ks :
  Permutation (group_keys cmp ks) (nodup dec ks).
Proof.
  apply NoDup_Permutation.
  - apply group_keys_NoDup.
  - apply NoDup_nodup.
  - intro x. now rewrite group_keys_In, nodup_In.
Qed.

Lemma group_keys_nonempty ks : ks <> [] -> group_keys cmp ks <> [].
Proof.
  destruct ks as [|k ks]; [congruence|]. intros _ E.
  assert (In k (group_keys cmp (k :: ks))) as Hin
    by (apply group_keys_In; now left).
  rewrite E in Hin. destruct Hin.
Qed.

(** One group of a groupby, against a filter with any faithful equality
    test. *)
Lemma get_group_filter (eqb : K -> K -> bool) (key : Row -> K) k df :
  (forall a b, eqb a b = true <-> a = b) ->
  get_group cmp key k df = filter (fun r => eqb (key r) k) df.
Proof.
  intro Heqb. unfold get_group. apply filter_ext. intro r.
  destruct (eqb (key r) k) eqn:E.
  - apply key_eqb_true. now apply Heqb.
  - destruct (key_eqb cmp (key r) k) eqn:E'; [|reflexivity].
    apply key_eqb_true, Heqb in E'. congruence.
Qed.

Lemma get_group_nonempty (key : Row -> K) k df :
  In k (map key df) -> get_group cmp key k df <> [].
Proof.
  intros Hin E. apply in_map_iff in Hin. destruct Hin as [r [Hk Hr]].
  assert (In r (get_group cmp key k df)) as H.
  { apply filter_In. split; [assumption|]. now apply key_eqb_true. }
  rewrite E in H. destruct H.
Qed.

End GroupByFacts.

Lemma count_below_map {K : Type} (g : K -> Q) (keys : list K) (x : Q) :
  Series.count_below (map (fun k => (k, g k)) keys) x
  = length (filter (fun k => Qltb (g k) x) keys).
Proof.
  unfold Series.count_below.
  induction keys as [|k keys IH]; simpl; [reflexivity|].
  destruct (Qltb (g k) x); simpl; now rewrite IH.
Qed.

Lemma filter_length_perm {A : Type} (f : A -> bool) (l l' : list A) :
  Permutation l l' -> length (filter f l) = length (filter f l').
Proof.
  induction 1 as [|a l l' _ IH|a b l|l l' l'' _ IH1 _ IH2]; simpl.
  - reflexivity.
  - destruct (f a); simpl; now rewrite IH.
  - destruct (f a), (f b); reflexivity.
  - now rewrite IH1.
Qed.

Lemma filter_length_le {A : Type} (f g : A -> bool) (l : list A) :
  (forall a, In a l -> f a = true -> g a = true) ->
  (length (filter f l) <= length (filter g l))%nat.
Proof.
  induction l as [|a l IH]; intro H; simpl; [lia|].
  assert (length (filter f l) <= length (filter g l))%nat as IH'
    by (apply IH; intros; apply H; [now right | assumption]).
  destruct (f a) eqn:Ef.
  - rewrite (H a (or_introl eq_refl) Ef). simpl. lia.
  - destruct (g a); simpl; lia.
Qed.

(** ** The two key orders of the engine *)

Lemma string_cmp_eq x y : String_as_OT.compare x y = Eq <-> x = y.
Proof.
  destruct (String_as_OT.compare_spec x y) as [H|H|H]; split;
    try congruence; intros ->;
    exfalso; eapply (StrictOrder_Irreflexive (R := String_as_OT.lt)); eassumption.
Qed.

Lemma string_cmp_gt x y :
  String_as_OT.compare x y = Gt -> String_as_OT.compare y x = Lt.
Proof.
  destruct (String_as_OT.compare_spec x y) as [H|H|H]; try discriminate.
  intros _. exact H.
Qed.

Lemma string_cmp_trans x y z :
  String_as_OT.compare x y = Lt -> String_as_OT.compare y z = Lt ->
  String_as_OT.compare x z = Lt.
Proof.
  intros H1 H2.
  exact (StrictOrder_Transitive (R := String_as_OT.lt) x y z H1 H2).
Qed.

Lemma Z_cmp_eq x y : (x ?= y)%Z = Eq <-> x = y.
Proof. apply Z.compare_eq_iff. Qed.

Lemma Z_cmp_gt x y : (x ?= y)%Z = Gt -> (y ?= x)%Z = Lt.
Proof. intro H. apply Z.gt_lt_iff in H. exact H. Qed.

Lemma Z_cmp_trans x y z :
  (x ?= y)%Z = Lt -> (y ?= z)%Z = Lt -> (x ?= z)%Z = Lt.
Proof. apply Z.lt_trans. Qed.

Ltac Z_order := first [apply Z_cmp_eq | apply Z_cmp_gt | apply Z_cmp_trans].
Ltac string_order :=
  first [apply string_cmp_eq | apply string_cmp_gt | apply string_cmp_trans].

(** ** The Series of a groupby on [assessment_no] *)

Lemma iloc_first_map {K : Type} (g : K -> Q) k t :
  Series.iloc_first (map (fun k => (k, g k)) (k :: t)) = g k.
Proof. reflexivity. Qed.

Lemma iloc_last_map {K : Type} (g : K -> Q) t k :
  Series.iloc_last (map (fun k => (k, g k)) (t ++ [k])) = g k.
Proof.
  induction t as [|a t IH]; [reflexivity|].
  cbn [app map]. cbn [app map] in IH.
  destruct (map (fun k0 => (k0, g k0)) (t ++ [k])) eqn:E.
  - destruct t; discriminate.
  - rewrite <- IH. reflexivity.
Qed.

Lemma sorted_first (l : list Z) lo :
  StronglySorted (fun x y => (x ?= y)%Z = Lt) l ->
  In lo l -> (forall x, In x l -> (lo <= x)%Z) ->
  exists t, l = lo :: t.
Proof.
  intros Hs Hin Hlo. destruct l as [|a t]; [destruct Hin|].
  exists t. f_equal.
  destruct Hin as [E|Hin]; [assumption|].
  apply StronglySorted_inv in Hs. destruct Hs as [_ Ha].
  rewrite Forall_forall in Ha. specialize (Ha lo Hin).
  change (a < lo)%Z in Ha.
  specialize (Hlo a (or_introl eq_refl)). lia.
Qed.

Lemma sorted_last (l : list Z) hi :
  StronglySorted (fun x y => (x ?= y)%Z = Lt) l ->
  In hi l -> (forall x, In x l -> (x <= hi)%Z) ->
  exists t, l = t ++ [hi].
Proof.
  induction 1 as [|a l Hs IH Ha]; intros Hin Hhi; [destruct Hin|].
  destruct l as [|b l].
  - exists []. destruct Hin as [->|[]]. reflexivity.
  - assert (In hi (b :: l)) as Hin'.
    { destruct Hin as [E|Hin]; [|assumption]. subst a.
      rewrite Forall_forall in Ha. specialize (Ha b (or_introl eq_refl)).
      change (hi < b)%Z in Ha.
      specialize (Hhi b (or_intror (or_introl eq_refl))). lia. }
    destruct (IH Hin') as [t Ht].
    { intros x Hx. apply Hhi. now right. }
    exists (a :: t). now rewrite Ht.
Qed.

Lemma Z_list_bounds (l : list Z) :
  l <> [] ->
  exists lo hi, In lo l /\ In hi l /\ forall x, In x l -> (lo <= x <= hi)%Z.
Proof.
  induction l as [|a l IH]; [congruence|]. intros _.
  destruct l as [|b l].
  - exists a, a. repeat split; try now left.
    all: destruct H as [->|[]]; lia.
  - destruct IH as [lo [hi [Hlo [Hhi Hb]]]]; [discriminate|].
    exists (if (a <? lo)%Z then a else lo), (if (hi <? a)%Z then a else hi).
    repeat split.
    + destruct (a <? lo)%Z; [now left | now right].
    + destruct (hi <? a)%Z; [now left | now right].
    + destruct H as [<-|H]; [|specialize (Hb x H)];
        destruct (Z.ltb_spec a lo); lia.
    + destruct H as [<-|H]; [|specialize (Hb x H)];
        destruct (Z.ltb_spec hi a); lia.
Qed.


Lemma assessment_group_mean df n :
  Series.mean (map assessment_score (get_group Z.compare assessment_no n df))
  = assessment_mean df n.
Proof.
  unfold assessment_mean.
  now rewrite (get_group_filter Z.compare Z_cmp_eq Z.eqb assessment_no n df Z.eqb_eq).
Qed.

Lemma assessment_scores_eq df :
  groupby_mean Z.compare assessment_no assessment_score df
  = map (fun n => (n, assessment_mean df n))
        (group_keys Z.compare (map assessment_no df)).
Proof.
  unfold groupby_mean. apply map_ext. intro n.
  now rewrite assessment_group_mean.
Qed.

(** The trend block, from the extreme assessment numbers of the frame. *)
Lemma trend_of_bounds df lo hi :
  In lo (map assessment_no df) -> In hi (map assessment_no df) ->
  (forall n, In n (map assessment_no df) -> (lo <= n <= hi)%Z) ->
  trend_of (groupby_mean Z.compare assessment_no assessment_score df)
  = if (lo =? hi)%Z then (0%Z, 0)
    else
      let change := assessment_mean df hi - assessment_mean df lo in
      (if Qltb change (-10) then 5%Z else 0%Z, change).
Proof.
  intros Hlo Hhi Hb. rewrite assessment_scores_eq.
  set (keys := group_keys Z.compare (map assessment_no df)).
  assert (StronglySorted (fun x y => (x ?= y)%Z = Lt) keys) as Hs
    by (apply group_keys_sorted; Z_order).
  assert (forall x, In x keys <-> In x (map assessment_no df)) as Hk
    by (intro x; apply group_keys_In; Z_order).
  assert (exists t, keys = lo :: t) as [t Ht].
  { apply sorted_first; [assumption | now apply Hk |].
    intros x Hx. apply Hk, Hb in Hx. lia. }
  assert (exists t', keys = t' ++ [hi]) as [t' Ht'].
  { apply sorted_last; [assumption | now apply Hk |].
    intros x Hx. apply Hk, Hb in Hx. lia. }
  unfold trend_of. rewrite length_map.
  destruct (Z.eqb_spec lo hi) as [E|E].
  - subst hi.
    assert (t = []) as ->.
    { destruct t as [|b t]; [reflexivity|]. exfalso.
      rewrite Ht in Hs. apply StronglySorted_inv in Hs. destruct Hs as [_ Ha].
      rewrite Forall_forall in Ha. specialize (Ha b (or_introl eq_refl)).
      change (lo < b)%Z in Ha.
      assert (In b keys) as Hbk by (rewrite Ht; right; now left).
      apply Hk, Hb in Hbk. lia. }
    rewrite Ht. reflexivity.
  - assert (2 <= length keys)%nat as Hlen.
    { rewrite Ht. destruct t as [|b t]; [|simpl; lia]. exfalso.
      rewrite Ht in Ht'. destruct t' as [|c [|d t']]; try discriminate.
      injection Ht' as ->. congruence. }
    apply Nat.leb_le in Hlen. rewrite Hlen.
    assert (Series.iloc_first (map (fun n => (n, assessment_mean df n)) keys)
            = assessment_mean df lo) as ->
      by (rewrite Ht; apply iloc_first_map).
    assert (Series.iloc_last (map (fun n => (n, assessment_mean df n)) keys)
            = assessment_mean df hi) as ->
      by (rewrite Ht'; apply (iloc_last_map (assessment_mean df))).
    cbv zeta. destruct (Qltb _ _); reflexivity.
Qed.

(** ** Classification *)

Lemma classify_compat x y : x == y -> classify x = classify y.
Proof.
  intro H. unfold classify, Qgeb.
  assert (forall c, Qle_bool c x = Qle_bool c y) as E
    by (intro c; now rewrite H).
  now rewrite !E.
Qed.

Lemma classify_bands x :
  (80 <= x -> classify x = ("EXCELLENT", "#2E7D32")%string) /\
  (65 <= x < 80 -> classify x = ("SATISFACTORY", "#F57C00")%string) /\
  (50 <= x < 65 -> classify x = ("AT RISK", "#EF6C00")%string) /\
  (x < 50 -> classify x = ("CRITICAL", "#C62828")%string).
Proof.
  unfold classify.
  destruct (Qgeb x 80) eqn:E80; [apply Qgeb_true in E80 | apply Qgeb_false in E80];
  (destruct (Qgeb x 65) eqn:E65; [apply Qgeb_true in E65 | apply Qgeb_false in E65]);
  (destruct (Qgeb x 50) eqn:E50; [apply Qgeb_true in E50 | apply Qgeb_false in E50]);
  repeat split; intros; try reflexivity; exfalso; lra.
Qed.

Lemma status_pair df p :
  let r := calculate_student_performance_index df p in
  status r = fst (classify (spi_score r)) /\
  status_color r = snd (classify (spi_score r)).
Proof.
  cbv zeta. pose proof (status_eq df p) as H. cbv zeta in H.
  rewrite <- H. split; reflexivity.
Qed.

(** ** Penalty 1 *)


Lemma failure_penalty_of_mono n m :
  (n <= m)%nat -> (failure_penalty_of n <= failure_penalty_of m)%Z.
Proof.
  unfold failure_penalty_of. intro H.
  destruct (Nat.eqb_spec n 1), (Nat.leb_spec 2 n),
           (Nat.eqb_spec m 1), (Nat.leb_spec 2 m); lia.
Qed.

(** * The engine's contract *)

(** C1. For a non-empty record set and any passing score, the returned score
    is the base SPI minus the failure penalty minus the trend penalty,
    clamped to [0, 100]; in particular it lies in [0, 100]. *)
Theorem C1_final_score_clamped (df : DataFrame) (p : Q) :
  df <> [] ->
  let r := calculate_student_performance_index df p in
  let d := details r in
  spi_score r
  == Qmax 0 (Qmin 100 (base_spi d - inject_Z (failure_penalty d)
                       - inject_Z (trend_penalty d)))
  /\ 0 <= spi_score r <= 100.
Proof.
  intros _ r d. subst d r. rewrite spi_score_eq. split.
  - rewrite py_max_Qmax.
    apply Q.max_compat; [reflexivity|]. rewrite py_min_Qmin. reflexivity.
  - apply clamp_range.
Qed.

(** All scores 0 with a raised-hand mean of 1000: the score stays in
    range. *)
Lemma C1_final_score_clamped_witness :
  pathological_rows <> [] /\
  let r := calculate_student_performance_index pathological_rows 60 in
  let d := details r in
  spi_score r
  == Qmax 0 (Qmin 100 (base_spi d - inject_Z (failure_penalty d)
                       - inject_Z (trend_penalty d)))
  /\ 0 <= spi_score r <= 100.
Proof.
  split; [discriminate|].
  apply (C1_final_score_clamped pathological_rows 60). discriminate.
Defined.

(** C2. For a non-empty record set the base SPI is
    mean(assessment_score) * 0.60 + mean(attendance_rate) * 0.25
    + min(mean(raised_hand_count) / 30 * 100, 100) * 0.15, and the three
    addends are the academic, attendance and engagement components of the
    breakdown, the capped value being its normalized engagement. *)
Theorem C2_base_spi_components (df : DataFrame) (p : Q) :
  df <> [] ->
  let d := details (calculate_student_performance_index df p) in
  let capped :=
    Qmin (Series.mean (map raised_hand_count df) / 30 * 100) 100 in
  academic_component d == Series.mean (map assessment_score df) * 0.60 /\
  attendance_component d == Series.mean (map attendance_rate df) * 0.25 /\
  normalized_engagement d == capped /\
  engagement_component d == capped * 0.15 /\
  base_spi d
  == Series.mean (map assessment_score df) * 0.60
     + Series.mean (map attendance_rate df) * 0.25
     + capped * 0.15.
Proof.
  intros _ d capped. subst d capped.
  unfold calculate_student_performance_index; cbv zeta.
  destruct (trend_of _). destruct (classify _). cbn.
  pose proof (py_min_Qmin (Series.mean (map raised_hand_count df) / 30 * 100) 100) as H.
  repeat split; try reflexivity; rewrite H; reflexivity.
Qed.

Lemma C2_base_spi_components_witness :
  scenario_rows <> [] /\
  let d := details (calculate_student_performance_index scenario_rows 60) in
  let capped :=
    Qmin (Series.mean (map raised_hand_count scenario_rows) / 30 * 100) 100 in
  academic_component d
  == Series.mean (map assessment_score scenario_rows) * 0.60 /\
  attendance_component d
  == Series.mean (map attendance_rate scenario_rows) * 0.25 /\
  normalized_engagement d == capped /\
  engagement_component d == capped * 0.15 /\
  base_spi d
  == Series.mean (map assessment_score scenario_rows) * 0.60
     + Series.mean (map attendance_rate scenario_rows) * 0.25
     + capped * 0.15.
Proof.
  split; [discriminate|].
  apply (C2_base_spi_components scenario_rows 60). discriminate.
Defined.

(** C3. For a non-empty record set the status is determined by the final
    score, with closed lower bounds: at least 80 is EXCELLENT, from 65 up to
    80 SATISFACTORY, from 50 up to 65 AT RISK, below 50 CRITICAL; exactly
    80, 65 and 50 are EXCELLENT, SATISFACTORY and AT RISK; each status
    comes with its fixed color; two runs with equal scores have equal
    status and color. *)
Theorem C3_status_bands (df : DataFrame) (p : Q) :
  df <> [] ->
  let r := calculate_student_performance_index df p in
  (80 <= spi_score r ->
   status r = "EXCELLENT"%string /\ status_color r = "#2E7D32"%string) /\
  (65 <= spi_score r < 80 ->
   status r = "SATISFACTORY"%string /\ status_color r = "#F57C00"%string) /\
  (50 <= spi_score r < 65 ->
   status r = "AT RISK"%string /\ status_color r = "#EF6C00"%string) /\
  (spi_score r < 50 ->
   status r = "CRITICAL"%string /\ status_color r = "#C62828"%string) /\
  (spi_score r == 80 -> status r = "EXCELLENT"%string) /\
  (spi_score r == 65 -> status r = "SATISFACTORY"%string) /\
  (spi_score r == 50 -> status r = "AT RISK"%string) /\
  (forall df' p',
      df' <> [] ->
      let r' := calculate_student_performance_index df' p' in
      spi_score r' == spi_score r ->
      status r' = status r /\ status_color r' = status_color r).
Proof.
  intros _ r.
  destruct (status_pair df p) as [Hs Hc]. fold r in Hs, Hc.
  destruct (classify_bands (spi_score r)) as [B1 [B2 [B3 B4]]].
  rewrite Hs, Hc.
  repeat match goal with |- _ /\ _ => split end.
  8: { intros df' p' _ r' E.
       destruct (status_pair df' p') as [Hs' Hc']. fold r' in Hs', Hc'.
       rewrite Hs', Hc'. now rewrite (classify_compat _ _ E). }
  all: intro H.
  all: first [ rewrite B1 by lra | rewrite B2 by lra
             | rewrite B3 by lra | rewrite B4 by lra ].
  all: try split; reflexivity.
Qed.

Lemma C3_status_bands_witness :
  scenario_rows <> [] /\
  status (calculate_student_performance_index scenario_rows 60)
  = "EXCELLENT"%string /\
  status_color (calculate_student_performance_index scenario_rows 60)
  = "#2E7D32"%string.
Proof.
  split; [discriminate|].
  destruct (C3_status_bands scenario_rows 60) as [H _]; [discriminate|].
  apply H. vm_compute. discriminate.
Defined.

Lemma trend_of_penalty (s : list (Z * Q)) :
  (snd (trend_of s) < -10 -> fst (trend_of s) = 5%Z) /\
  (-10 <= snd (trend_of s) -> fst (trend_of s) = 0%Z).
Proof.
  unfold trend_of. destruct (2 <=? length s)%nat.
  - cbv zeta.
    case_Qltb (Series.iloc_last s - Series.iloc_first s) (-10);
      cbn [fst snd]; split; intro; try reflexivity; exfalso; lra.
  - cbn [fst snd]. split; intro; try reflexivity; exfalso; lra.
Qed.


(** ** The risk overview *)

Lemma isin_at_risk (x : Q) :
  let s := fst (classify x) in
  (isin ["AT RISK"; "CRITICAL"]%string s = true
   <-> s = "AT RISK"%string \/ s = "CRITICAL"%string) /\
  (isin ["AT RISK"; "CRITICAL"]%string s = true <-> x < 65).
Proof.
  unfold classify.
  destruct (Qgeb x 80) eqn:E80; [apply Qgeb_true in E80 | apply Qgeb_false in E80];
  (destruct (Qgeb x 65) eqn:E65; [apply Qgeb_true in E65 | apply Qgeb_false in E65]);
  (destruct (Qgeb x 50) eqn:E50; [apply Qgeb_true in E50 | apply Qgeb_false in E50]);
  cbn; repeat split; intros;
    try reflexivity; try discriminate; try lra; auto;
    match goal with
    | H : _ \/ _ |- _ => destruct H; discriminate
    end.
Qed.

Lemma rows_of_student_nonempty df sid :
  In sid (map student_id df) -> rows_of_student df sid <> [].
Proof.
  intros Hin E. apply in_map_iff in Hin. destruct Hin as [r [Hs Hr]].
  assert (In r (rows_of_student df sid)) as H
    by (apply filter_In; split; [assumption | now apply Z.eqb_eq]).
  rewrite E in H. destruct H.
Qed.

(** C8. Every student of the risk overview is flagged at risk exactly when
    the status computed on the student's rows is AT RISK or CRITICAL, which
    is exactly when the student's final score is strictly below 65. *)
Theorem C8_at_risk_iff (df : DataFrame) (p : Q) (e : SpiEntry) :
  In e (risk_overview df p) ->
  let student_data := rows_of_student df (entry_student_id e) in
  let r := calculate_student_performance_index student_data p in
  student_data <> [] /\
  entry_status e = status r /\
  entry_spi_score e = spi_score r /\
  (at_risk e = true
   <-> status r = "AT RISK"%string \/ status r = "CRITICAL"%string) /\
  (at_risk e = true <-> spi_score r < 65).
Proof.
  intros Hin. unfold risk_overview in Hin.
  apply in_map_iff in Hin. destruct Hin as [sid [He Hsid]].
  subst e. cbn [entry_student_id entry_status entry_spi_score at_risk].
  apply (proj1 (group_keys_In Z.compare Z_cmp_eq _ _)) in Hsid.
  set (student_data := rows_of_student df sid).
  set (r := calculate_student_performance_index student_data p).
  destruct (status_pair student_data p) as [Hs _]. fold r in Hs.
  destruct (isin_at_risk (spi_score r)) as [I1 I2]. cbv zeta in I1, I2.
  rewrite <- Hs in I1, I2.
  split; [now apply rows_of_student_nonempty|].
  split; [reflexivity|]. split; [reflexivity|].
  split; assumption.
Qed.

(** In the sample cohort, student 3 (one failing course, attendance 50)
    is flagged. *)
Lemma C8_at_risk_iff_witness :
  let e := mkSpiEntry 3 (89280000000 # 1920000000) "CRITICAL" "#C62828" true in
  In e (risk_overview cohort_rows 60) /\
  (at_risk e = true
   <-> spi_score (calculate_student_performance_index
                    (rows_of_student cohort_rows (entry_student_id e)) 60)
       < 65).
Proof.
  cbv zeta.
  assert (In (mkSpiEntry 3 (89280000000 # 1920000000) "CRITICAL" "#C62828" true)
             (risk_overview cohort_rows 60)) as Hin
    by (vm_compute; right; left; reflexivity).
  split; [exact Hin|].
  apply (C8_at_risk_iff cohort_rows 60 _ Hin).
Defined.

(** C9. One course, two assessments scored 90, attendance 100, 30 raised
    hands, passing score 60: academic 54, attendance 25, engagement 15,
    base 94, no failed course, no trend penalty, final score 94,
    EXCELLENT. *)
Theorem C9_scenario :
  let r := calculate_student_performance_index scenario_rows 60 in
  let d := details r in
  academic_component d == 54 /\
  attendance_component d == 25 /\
  engagement_component d == 15 /\
  base_spi d == 94 /\
  failed_courses d = 0%nat /\
  failure_penalty d = 0%Z /\
  trend_penalty d = 0%Z /\
  spi_score r == 94 /\
  status r = "EXCELLENT"%string.
Proof.
  vm_compute. repeat split; reflexivity.
Qed.

(** ** Monotonicity in the passing score *)

Lemma count_below_mono {K : Type} (s : list (K * Q)) (p1 p2 : Q) :
  p1 <= p2 -> (Series.count_below s p1 <= Series.count_below s p2)%nat.
Proof.
  intro H. unfold Series.count_below. apply filter_length_le.
  intros kv _ E. apply Qltb_true in E. apply Qltb_true. lra.
Qed.

(** C10. For a fixed non-empty record set the final score is weakly
    decreasing in the passing score: for p1 <= p2 the failed-course count
    and the failure penalty at p2 are at least those at p1, the base SPI
    and the trend penalty are the same, and the score at p2 is at most the
    score at p1. *)
Theorem C10_score_antitone_in_passing_score (df : DataFrame) (p1 p2 : Q) :
  df <> [] -> p1 <= p2 ->
  let r1 := calculate_student_performance_index df p1 in
  let r2 := calculate_student_performance_index df p2 in
  (failed_courses (details r1) <= failed_courses (details r2))%nat /\
  (failure_penalty (details r1) <= failure_penalty (details r2))%Z /\
  base_spi (details r2) = base_spi (details r1) /\
  trend_penalty (details r2) = trend_penalty (details r1) /\
  spi_score r2 <= spi_score r1.
Proof.
  intros _ Hp r1 r2. subst r1 r2.
  assert (failed_courses (details (calculate_student_performance_index df p1))
          <= failed_courses (details (calculate_student_performance_index df p2)))%nat
    as Hc by (rewrite !failed_courses_eq; now apply count_below_mono).
  assert (failure_penalty (details (calculate_student_performance_index df p1))
          <= failure_penalty (details (calculate_student_performance_index df p2)))%Z
    as Hf by (rewrite !failure_penalty_eq; now apply failure_penalty_of_mono).
  assert (base_spi (details (calculate_student_performance_index df p2))
          = base_spi (details (calculate_student_performance_index df p1)))
    as Hb by (now rewrite !base_spi_eq).
  assert (trend_penalty (details (calculate_student_performance_index df p2))
          = trend_penalty (details (calculate_student_performance_index df p1)))
    as Ht by (now rewrite !trend_penalty_eq).
  repeat match goal with |- _ /\ _ => split end; try assumption.
  rewrite !spi_score_eq. apply clamp_mono. unfold penalised.
  rewrite Hb, Ht. rewrite Zle_Qle in Hf. lra.
Qed.

(** Raising the passing score from 60 to 95 on the scenario rows. *)
Lemma C10_score_antitone_in_passing_score_witness :
  scenario_rows <> [] /\ 60 <= 95 /\
  spi_score (calculate_student_performance_index scenario_rows 95)
  <= spi_score (calculate_student_performance_index scenario_rows 60).
Proof.
  split; [discriminate|]. split; [discriminate|].
  apply (C10_score_antitone_in_passing_score scenario_rows 60 95);
    discriminate.
Defined.

(** ** Raising every score by a constant *)


Lemma raise_scores_scores c df :
  map assessment_score (raise_scores c df)
  = map (fun r => assessment_score r + c) df.
Proof.
  unfold raise_scores. rewrite map_map. reflexivity.
Qed.

Lemma raise_scores_filter (f : Row -> bool) c df :
  (forall r, f (mkRow (student_id r) (student_name r) (class_level r)
                      (course_name r) (assessment_no r)
                      (assessment_score r + c) (attendance_rate r)
                      (raised_hand_count r)) = f r) ->
  filter f (raise_scores c df) = raise_scores c (filter f df).
Proof.
  intro H. induction df as [|r df IH]; [reflexivity|].
  cbn [raise_scores map filter]. rewrite H.
  fold (raise_scores c df). rewrite IH.
  destruct (f r); reflexivity.
Qed.

Lemma filter_nonempty {A : Type} (f : A -> bool) (l : list A) (a : A) :
  In a l -> f a = true -> filter f l <> [].
Proof.
  intros Hin Hf E.
  assert (In a (filter f l)) as H by (apply filter_In; now split).
  rewrite E in H. destruct H.
Qed.

(** ** Inserting rows *)

Lemma inserted_In old extra new r :
  inserted old extra new -> (In r new <-> In r old \/ In r extra).
Proof.
  induction 1 as [|x old extra new _ IH|x old extra new _ IH]; simpl.
  - tauto.
  - rewrite IH. tauto.
  - rewrite IH. tauto.
Qed.

Lemma inserted_filter (f : Row -> bool) old extra new :
  inserted old extra new ->
  (forall r, In r extra -> f r = false) ->
  filter f new = filter f old.
Proof.
  induction 1 as [|x old extra new _ IH|x old extra new _ IH]; intro Hf; simpl.
  - reflexivity.
  - now rewrite IH.
  - rewrite (Hf x) by now left.
    apply IH. intros r Hr. apply Hf. now right.
Qed.

Lemma inserted_trend old extra new :
  old <> [] ->
  inserted old extra new ->
  (forall r, In r extra ->
             exists a b, In a old /\ In b old /\
                         (assessment_no a < assessment_no r < assessment_no b)%Z) ->
  trend_of (groupby_mean Z.compare assessment_no assessment_score new)
  = trend_of (groupby_mean Z.compare assessment_no assessment_score old).
Proof.
  intros Hne Hins Hmid.
  assert (map assessment_no old <> []) as Hne'
    by (destruct old; [congruence | discriminate]).
  destruct (Z_list_bounds _ Hne') as [lo [hi [Hlo [Hhi Hb]]]].
  assert (forall r, In r extra -> (lo < assessment_no r < hi)%Z) as Hin.
  { intros r Hr. destruct (Hmid r Hr) as [a [b [Ha [Hb' Hab]]]].
    pose proof (Hb _ (in_map assessment_no _ _ Ha)).
    pose proof (Hb _ (in_map assessment_no _ _ Hb')). lia. }
  assert (forall n, In n (map assessment_no old) -> In n (map assessment_no new))
    as Hsub.
  { intros n Hn. apply in_map_iff in Hn. destruct Hn as [r [<- Hr]].
    apply in_map. apply (inserted_In _ _ _ r Hins). now left. }
  assert (forall n, In n (map assessment_no new) -> (lo <= n <= hi)%Z) as Hb'.
  { intros n Hn. apply in_map_iff in Hn. destruct Hn as [r [<- Hr]].
    apply (inserted_In _ _ _ r Hins) in Hr. destruct Hr as [Hr|Hr].
    - apply Hb. now apply in_map.
    - specialize (Hin r Hr). lia. }
  rewrite (trend_of_bounds old lo hi Hlo Hhi Hb).
  rewrite (trend_of_bounds new lo hi (Hsub _ Hlo) (Hsub _ Hhi) Hb').
  assert (assessment_mean new lo = assessment_mean old lo) as ->.
  { unfold assessment_mean. f_equal. f_equal.
    apply (inserted_filter _ old extra new Hins).
    intros r Hr. specialize (Hin r Hr). apply Z.eqb_neq. lia. }
  assert (assessment_mean new hi = assessment_mean old hi) as ->.
  { unfold assessment_mean. f_equal. f_equal.
    apply (inserted_filter _ old extra new Hins).
    intros r Hr. specialize (Hin r Hr). apply Z.eqb_neq. lia. }
  reflexivity.
Qed.

(** C7. For a non-empty record set, inserting rows whose assessment number
    lies strictly between the existing minimum and maximum changes neither
    the trend penalty nor the performance change. *)
Theorem C7_middle_rows_keep_trend_penalty
    (old extra new : DataFrame) (p : Q) :
  old <> [] ->
  inserted old extra new ->
  (forall r, In r extra ->
             exists a b, In a old /\ In b old /\
                         (assessment_no a < assessment_no r < assessment_no b)%Z) ->
  trend_penalty (details (calculate_student_performance_index new p))
  = trend_penalty (details (calculate_student_performance_index old p)) /\
  performance_trend (details (calculate_student_performance_index new p))
  = performance_trend (details (calculate_student_performance_index old p)).
Proof.
  intros Hne Hins Hmid.
  rewrite !trend_penalty_eq, !performance_trend_eq.
  rewrite (inserted_trend old extra new Hne Hins Hmid).
  split; reflexivity.
Qed.

(** Two sharply lower rows for assessment number 2, inserted into the run
    1, 2, 3: the penalty stays 5. *)
Lemma C7_middle_rows_keep_trend_penalty_witness :
  declining_rows <> [] /\
  inserted declining_rows middle_dip_rows declining_with_dip_rows /\
  trend_penalty
    (details (calculate_student_performance_index declining_with_dip_rows 60))
  = trend_penalty
      (details (calculate_student_performance_index declining_rows 60)).
Proof.
  assert (inserted declining_rows middle_dip_rows declining_with_dip_rows)
    as Hins by (repeat constructor).
  split; [discriminate|]. split; [exact Hins|].
  apply (C7_middle_rows_keep_trend_penalty
           declining_rows middle_dip_rows declining_with_dip_rows 60);
    [discriminate | exact Hins |].
  intros r Hr.
  exists (mkRow 4 "Dana" "C3" "Math" 1 80 90 10),
         (mkRow 4 "Dana" "C3" "Math" 3 60 90 10).
  cbn in Hr. destruct Hr as [<-|[<-|[]]]; cbn; intuition lia.
Defined.

(** * Further properties of the engine *)

(** ** Bounds on a mean *)

Lemma sum_lower (a : Q) (l : list Q) :
  (forall x, In x l -> a <= x) ->
  a * inject_Z (Z.of_nat (length l)) <= Series.sum l.
Proof.
  induction l as [|x l IH]; intro H.
  - cbn [Series.sum fold_right length Z.of_nat]. change (inject_Z 0) with 0. lra.
  - cbn [Series.sum fold_right length]. fold (Series.sum l).
    rewrite Nat2Z.inj_succ, <- Z.add_1_r, inject_Z_plus. change (inject_Z 1) with 1.
    assert (a <= x) by (apply H; now left).
    assert (a * inject_Z (Z.of_nat (length l)) <= Series.sum l)
      by (apply IH; intros; apply H; now right).
    nra.
Qed.

Lemma sum_upper (b : Q) (l : list Q) :
  (forall x, In x l -> x <= b) ->
  Series.sum l <= b * inject_Z (Z.of_nat (length l)).
Proof.
  induction l as [|x l IH]; intro H.
  - cbn [Series.sum fold_right length Z.of_nat]. change (inject_Z 0) with 0. lra.
  - cbn [Series.sum fold_right length]. fold (Series.sum l).
    rewrite Nat2Z.inj_succ, <- Z.add_1_r, inject_Z_plus. change (inject_Z 1) with 1.
    assert (x <= b) by (apply H; now left).
    assert (Series.sum l <= b * inject_Z (Z.of_nat (length l)))
      by (apply IH; intros; apply H; now right).
    nra.
Qed.

Lemma mean_lower (a : Q) (l : list Q) :
  l <> [] -> (forall x, In x l -> a <= x) -> a <= Series.mean l.
Proof.
  intros Hne H. unfold Series.mean.
  apply Qle_shift_div_l; [now apply length_pos_Q | now apply sum_lower].
Qed.

Lemma mean_upper (b : Q) (l : list Q) :
  l <> [] -> (forall x, In x l -> x <= b) -> Series.mean l <= b.
Proof.
  intros Hne H. unfold Series.mean.
  apply Qle_shift_div_r; [now apply length_pos_Q | now apply sum_upper].
Qed.

Lemma column_nonempty {A : Type} (col : Row -> A) (df : DataFrame) :
  df <> [] -> map col df <> [].
Proof. destruct df; [congruence | discriminate]. Qed.

Lemma column_bounds (col : Row -> Q) (df : DataFrame) (P : Q -> Prop) :
  (forall r, In r df -> P (col r)) -> forall x, In x (map col df) -> P x.
Proof.
  intros H x Hx. apply in_map_iff in Hx. destruct Hx as [r [<- Hr]]. auto.
Qed.

Lemma academic_component_eq df p :
  academic_component (details (calculate_student_performance_index df p))
  = Series.mean (map assessment_score df) * 0.60.
Proof. open_calc. Qed.

Lemma attendance_component_eq df p :
  attendance_component (details (calculate_student_performance_index df p))
  = Series.mean (map attendance_rate df) * 0.25.
Proof. open_calc. Qed.

Lemma normalized_engagement_eq df p :
  normalized_engagement (details (calculate_student_performance_index df p))
  = py_min (Series.mean (map raised_hand_count df) / 30 * 100) 100.
Proof. open_calc. Qed.

Lemma engagement_component_eq df p :
  engagement_component (details (calculate_student_performance_index df p))
  = normalized_engagement (details (calculate_student_performance_index df p))
    * 0.15.
Proof. open_calc. Qed.

Lemma base_spi_sum df p :
  let d := details (calculate_student_performance_index df p) in
  base_spi d
  = academic_component d + attendance_component d + engagement_component d.
Proof. open_calc. Qed.

Lemma py_min_cap a : py_min a 100 <= 100.
Proof. unfold py_min. case_Qltb 100 a; lra. Qed.

Lemma failure_penalty_values df p :
  let fp := failure_penalty (details (calculate_student_performance_index df p)) in
  fp = 0%Z \/ fp = 5%Z \/ fp = 10%Z.
Proof.
  cbv zeta. rewrite failure_penalty_eq. unfold failure_penalty_of.
  destruct (_ =? 1)%nat; [auto|]. destruct (2 <=? _)%nat; auto.
Qed.

Lemma trend_penalty_values df p :
  let tp := trend_penalty (details (calculate_student_performance_index df p)) in
  tp = 0%Z \/ tp = 5%Z.
Proof.
  cbv zeta. rewrite trend_penalty_eq. unfold trend_of.
  destruct (2 <=? _)%nat; [|now left].
  cbv zeta. destruct (Qltb _ _); cbn [fst]; auto.
Qed.

Lemma penalised_range df p :
  let d := details (calculate_student_performance_index df p) in
  base_spi d - 15 <= penalised d <= base_spi d.
Proof.
  cbv zeta. unfold penalised.
  destruct (failure_penalty_values df p) as [-> | [-> | ->]];
    destruct (trend_penalty_values df p) as [-> | ->];
    unfold inject_Z; lra.
Qed.

(** ** Ranges of the components and of the penalties *)

(** X1. When every score and attendance rate of a non-empty record set lies
    in [0, 100] and no raised-hand count is negative, the academic,
    attendance and engagement components lie in [0, 60], [0, 25] and
    [0, 15], the base SPI lies in [0, 100], the upper clamp never fires
    (the score is the penalised base, floored at 0), and the score never
    exceeds the base SPI. *)
Theorem X1_bounded_inputs (df : DataFrame) (p : Q) :
  df <> [] ->
  (forall r, In r df ->
             0 <= assessment_score r <= 100 /\
             0 <= attendance_rate r <= 100 /\
             0 <= raised_hand_count r) ->
  let r := calculate_student_performance_index df p in
  let d := details r in
  0 <= academic_component d <= 60 /\
  0 <= attendance_component d <= 25 /\
  0 <= engagement_component d <= 15 /\
  0 <= base_spi d <= 100 /\
  spi_score r
  == Qmax 0 (base_spi d - inject_Z (failure_penalty d)
             - inject_Z (trend_penalty d)) /\
  spi_score r <= base_spi d.
Proof.
  intros Hne Hin r d. subst d r.
  pose proof (base_spi_sum df p) as Hb. cbv zeta in Hb.
  pose proof (penalised_range df p) as Hp. cbv zeta in Hp.
  unfold penalised in Hp.
  assert (0 <= Series.mean (map assessment_score df) <= 100) as Hs.
  { split; [apply mean_lower | apply mean_upper];
      try (now apply column_nonempty);
      apply column_bounds; intros r Hr; apply Hin in Hr; tauto. }
  assert (0 <= Series.mean (map attendance_rate df) <= 100) as Ha.
  { split; [apply mean_lower | apply mean_upper];
      try (now apply column_nonempty);
      apply column_bounds; intros r Hr; apply Hin in Hr; tauto. }
  assert (0 <= Series.mean (map raised_hand_count df)) as Hh.
  { apply mean_lower; [now apply column_nonempty|].
    apply column_bounds; intros r Hr; apply Hin in Hr; tauto. }
  assert (0 <= normalized_engagement
                 (details (calculate_student_performance_index df p)) <= 100)
    as Hn.
  { rewrite normalized_engagement_eq. split; [|apply py_min_cap].
    unfold py_min.
    case_Qltb 100 (Series.mean (map raised_hand_count df) / 30 * 100);
      [lra|].
    apply Qmult_le_0_compat; [|lra].
    apply Qle_shift_div_l; lra. }
  rewrite spi_score_eq. unfold penalised.
  rewrite Hb, academic_component_eq, attendance_component_eq,
    engagement_component_eq in *.
  set (n := normalized_engagement _) in *.
  set (s := Series.mean (map assessment_score df)) in *.
  set (a := Series.mean (map attendance_rate df)) in *.
  set (fp := inject_Z (failure_penalty _)) in *.
  set (tp := inject_Z (trend_penalty _)) in *.
  repeat match goal with |- _ /\ _ => split end; try lra.
  - rewrite py_max_Qmax. apply Q.max_compat; [reflexivity|].
    unfold py_min.
    case_Qltb (s * 0.60 + a * 0.25 + n * 0.15 - fp - tp) 100;
      [reflexivity | lra].
  - unfold py_max, py_min.
    case_Qltb (s * 0.60 + a * 0.25 + n * 0.15 - fp - tp) 100.
    + case_Qltb 0 (s * 0.60 + a * 0.25 + n * 0.15 - fp - tp); lra.
    + case_Qltb 0 100; lra.
Qed.

Lemma X1_bounded_inputs_witness :
  one_failure_rows <> [] /\
  let r := calculate_student_performance_index one_failure_rows 60 in
  0 <= base_spi (details r) <= 100 /\ spi_score r <= base_spi (details r).
Proof.
  split; [discriminate|].
  destruct (X1_bounded_inputs one_failure_rows 60)
    as [_ [_ [_ [H1 [_ H2]]]]]; [discriminate | | split; assumption].
  intros r Hr. cbn in Hr.
  destruct Hr as [<-|[<-|[<-|[<-|[]]]]]; cbn; repeat split; discriminate.
Defined.

(** X2. Whatever the inputs of a non-empty record set, the normalized
    engagement is at most 100 and the engagement component at most 15; from
    a raised-hand mean of 30 upwards they are exactly 100 and 15, so more
    raised hands earn nothing; up to a mean of 30 the normalized engagement
    is the mean scaled by 100 / 30. *)
Theorem X2_engagement_cap (df : DataFrame) (p : Q) :
  df <> [] ->
  let d := details (calculate_student_performance_index df p) in
  let avg := Series.mean (map raised_hand_count df) in
  normalized_engagement d <= 100 /\
  engagement_component d <= 15 /\
  (30 <= avg ->
   normalized_engagement d == 100 /\ engagement_component d == 15) /\
  (avg <= 30 -> normalized_engagement d == avg / 30 * 100).
Proof.
  intros _ d avg. subst d.
  rewrite engagement_component_eq, normalized_engagement_eq. fold avg.
  pose proof (py_min_cap (avg / 30 * 100)) as Hc.
  assert (avg / 30 * 100 == avg * (100 # 30)) as E by (field).
  unfold py_min in *.
  case_Qltb 100 (avg / 30 * 100); rewrite E in *;
    repeat match goal with |- _ /\ _ => split end; intros;
    try reflexivity; try lra.
Qed.

Lemma X2_engagement_cap_witness :
  pathological_rows <> [] /\
  engagement_component
    (details (calculate_student_performance_index pathological_rows 60))
  == 15.
Proof.
  split; [discriminate|].
  destruct (X2_engagement_cap pathological_rows 60)
    as [_ [_ [H _]]]; [discriminate|].
  apply H. vm_compute. discriminate.
Defined.

(** X3. For a non-empty record set the failure penalty is at most 10 and
    the trend penalty at most 5, so the penalties take at most 15 off the
    base SPI.  Hence a base SPI of at least 95 is EXCELLENT, a base SPI of
    at least 80 is EXCELLENT or SATISFACTORY, and a base SPI below 65 is AT
    RISK or CRITICAL, whatever the penalties. *)
Theorem X3_penalties_at_most_15 (df : DataFrame) (p : Q) :
  df <> [] ->
  let r := calculate_student_performance_index df p in
  let d := details r in
  (0 <= failure_penalty d <= 10)%Z /\
  (0 <= trend_penalty d <= 5)%Z /\
  base_spi d - 15
  <= base_spi d - inject_Z (failure_penalty d) - inject_Z (trend_penalty d)
  <= base_spi d /\
  (95 <= base_spi d -> status r = "EXCELLENT"%string) /\
  (80 <= base_spi d ->
   status r = "EXCELLENT"%string \/ status r = "SATISFACTORY"%string) /\
  (base_spi d < 65 ->
   status r = "AT RISK"%string \/ status r = "CRITICAL"%string).
Proof.
  intros _ r d. subst d r.
  pose proof (penalised_range df p) as Hp. cbv zeta in Hp.
  unfold penalised in Hp.
  destruct (status_pair df p) as [Hs _]. cbv zeta in Hs.
  pose proof (spi_score_eq df p) as Hsc. unfold penalised in Hsc.
  destruct (classify_bands
              (spi_score (calculate_student_performance_index df p)))
    as [B1 [B2 [B3 B4]]].
  set (x := base_spi _ - inject_Z _ - inject_Z _) in *.
  assert (x < 65 -> spi_score (calculate_student_performance_index df p) < 65)
    as Hlow.
  { intro H. rewrite Hsc. unfold py_max, py_min.
    case_Qltb x 100; [case_Qltb 0 x; lra | lra]. }
  assert (forall c, c <= 100 -> c <= x ->
                    c <= spi_score (calculate_student_performance_index df p))
    as Hhigh.
  { intros c Hc H. rewrite Hsc. unfold py_max, py_min.
    case_Qltb x 100; [case_Qltb 0 x; lra | case_Qltb 0 100; lra]. }
  repeat match goal with |- _ /\ _ => split end; try lra.
  - destruct (failure_penalty_values df p) as [-> | [-> | ->]]; lia.
  - destruct (failure_penalty_values df p) as [-> | [-> | ->]]; lia.
  - destruct (trend_penalty_values df p) as [-> | ->]; lia.
  - destruct (trend_penalty_values df p) as [-> | ->]; lia.
  - intro H. rewrite Hs, B1; [reflexivity|]. apply Hhigh; lra.
  - intro H.
    assert (65 <= spi_score (calculate_student_performance_index df p))
      as H65 by (apply Hhigh; lra).
    rewrite Hs.
    destruct (Qlt_le_dec
                (spi_score (calculate_student_performance_index df p)) 80).
    + right. rewrite B2; [reflexivity | lra].
    + left. rewrite B1; [reflexivity | lra].
  - intro H.
    assert (spi_score (calculate_student_performance_index df p) < 65)
      as H65 by (apply Hlow; lra).
    rewrite Hs.
    destruct (Qlt_le_dec
                (spi_score (calculate_student_performance_index df p)) 50).
    + right. rewrite B4; [reflexivity | lra].
    + left. rewrite B3; [reflexivity | lra].
Qed.

Lemma X3_penalties_at_most_15_witness :
  declining_rows <> [] /\
  let d := details (calculate_student_performance_index declining_rows 60) in
  (0 <= failure_penalty d <= 10)%Z /\ (0 <= trend_penalty d <= 5)%Z.
Proof.
  split; [discriminate|].
  destruct (X3_penalties_at_most_15 declining_rows 60)
    as [H1 [H2 _]]; [discriminate|].
  split; assumption.
Defined.

(** ** Splitting a list by a test *)

Lemma length_filter_split {A : Type} (g : A -> bool) (l : list A) :
  length l
  = (length (filter g l) + length (filter (fun r => negb (g r)) l))%nat.
Proof.
  induction l as [|a l IH]; [reflexivity|].
  simpl. destruct (g a); simpl; lia.
Qed.

(** ** Filters and permutations *)

Lemma filter_perm {A : Type} (f : A -> bool) (l l' : list A) :
  Permutation l l' -> Permutation (filter f l) (filter f l').
Proof.
  induction 1 as [|x l l' _ IH|x y l|l l' l'' _ IH1 _ IH2]; simpl.
  - constructor.
  - destruct (f x); [now constructor | assumption].
  - destruct (f x), (f y); try reflexivity. constructor.
  - now transitivity (filter f l').
Qed.

(** * The dashboard script *)

(** ** Pass rate *)

Lemma groupby_mean_values {K : Type} (cmp : K -> K -> comparison)
    (key : Row -> K) (col : Row -> Q) (df : DataFrame) (a b : Q) :
  (forall x y, cmp x y = Eq <-> x = y) ->
  (forall r, In r df -> a <= col r <= b) ->
  forall kv, In kv (groupby_mean cmp key col df) -> a <= snd kv <= b.
Proof.
  intros Heq Hcol kv Hkv. unfold groupby_mean in Hkv.
  apply in_map_iff in Hkv. destruct Hkv as [k [<- Hk]]. cbn [snd].
  apply (proj1 (group_keys_In cmp Heq _ _)) in Hk.
  assert (map col (get_group cmp key k df) <> []) as Hne
    by (now apply column_nonempty, get_group_nonempty).
  assert (forall x, In x (map col (get_group cmp key k df)) -> a <= x <= b)
    as Hb.
  { apply column_bounds. intros r Hr. apply filter_In in Hr.
    apply Hcol. tauto. }
  split; [apply mean_lower | apply mean_upper]; try assumption;
    intros x Hx; apply Hb in Hx; tauto.
Qed.

Lemma pass_rate_between (df : DataFrame) (p a b : Q) :
  df <> [] ->
  (forall r, In r df -> a <= bool_to_Q (is_passing p r) <= b) ->
  a * 100 <= pass_rate df p <= b * 100.
Proof.
  intros Hne Hcol. unfold pass_rate.
  set (s := groupby_mean Z.compare student_id
              (fun r => bool_to_Q (is_passing p r)) df).
  assert (map (fun kv : Z * Q => snd kv * 100) s <> []) as Hne'.
  { unfold s, groupby_mean. rewrite map_map.
    intro E. apply map_eq_nil in E.
    apply (group_keys_nonempty Z.compare Z_cmp_eq (map student_id df));
      [now apply column_nonempty | exact E]. }
  assert (forall x, In x (map (fun kv : Z * Q => snd kv * 100) s) ->
                    a * 100 <= x <= b * 100) as Hb.
  { intros x Hx. apply in_map_iff in Hx. destruct Hx as [kv [<- Hkv]].
    pose proof (groupby_mean_values Z.compare student_id _ df a b
                  Z_cmp_eq Hcol kv Hkv). lra. }
  split; [apply mean_lower | apply mean_upper]; try assumption;
    intros x Hx; apply Hb in Hx; tauto.
Qed.

(** X7. On a non-empty frame the pass rate and the fail rate lie in
    [0, 100]; when every assessment is passing they are 100 and 0, when
    none is they are 0 and 100. *)
Theorem X7_pass_rate_range (df : DataFrame) (p : Q) :
  df <> [] ->
  0 <= pass_rate df p <= 100 /\
  0 <= fail_rate df p <= 100 /\
  ((forall r, In r df -> is_passing p r = true) ->
   pass_rate df p == 100 /\ fail_rate df p == 0) /\
  ((forall r, In r df -> is_passing p r = false) ->
   pass_rate df p == 0 /\ fail_rate df p == 100).
Proof.
  intro Hne. unfold fail_rate.
  assert (0 * 100 <= pass_rate df p <= 1 * 100) as H01.
  { apply pass_rate_between; [assumption|].
    intros r _. destruct (is_passing p r); cbn; lra. }
  repeat match goal with |- _ /\ _ => split end; try lra.
  - intro Hall.
    assert (1 * 100 <= pass_rate df p <= 1 * 100) as H.
    { apply pass_rate_between; [assumption|].
      intros r Hr. rewrite (Hall r Hr). cbn. lra. }
    split; lra.
  - intro Hnone.
    assert (0 * 100 <= pass_rate df p <= 0 * 100) as H.
    { apply pass_rate_between; [assumption|].
      intros r Hr. rewrite (Hnone r Hr). cbn. lra. }
    split; lra.
Qed.

Lemma X7_pass_rate_range_witness :
  cohort_rows <> [] /\
  0 <= pass_rate cohort_rows 60 <= 100 /\
  0 <= fail_rate cohort_rows 60 <= 100.
Proof.
  split; [discriminate|].
  destruct (X7_pass_rate_range cohort_rows 60) as [H1 [H2 _]];
    [discriminate|].
  split; assumption.
Defined.

(** ** The risk overview and its totals *)

Lemma classify_facts (x : Q) :
  let s := fst (classify x) in
  let c := snd (classify x) in
  isin ["AT RISK"; "CRITICAL"]%string s = Qltb x 65 /\
  String.eqb s "CRITICAL" = Qltb x 50 /\
  In s status_order /\
  getitem status_colors_map s = Some c.
Proof.
  unfold classify.
  destruct (Qgeb x 80) eqn:E80; [apply Qgeb_true in E80 | apply Qgeb_false in E80];
  (destruct (Qgeb x 65) eqn:E65; [apply Qgeb_true in E65 | apply Qgeb_false in E65]);
  (destruct (Qgeb x 50) eqn:E50; [apply Qgeb_true in E50 | apply Qgeb_false in E50]);
  cbn; try (exfalso; lra);
  (split; [symmetry; first [apply Qltb_true; lra | apply Qltb_false; lra]|]);
  (split; [symmetry; first [apply Qltb_true; lra | apply Qltb_false; lra]|]);
  (split; [tauto | reflexivity]).
Qed.

Lemma overview_entry df p e :
  In e (risk_overview df p) ->
  In (entry_student_id e) (map student_id df) /\
  let r := calculate_student_performance_index
             (rows_of_student df (entry_student_id e)) p in
  entry_spi_score e = spi_score r /\
  entry_status e = fst (classify (spi_score r)) /\
  entry_status_color e = snd (classify (spi_score r)) /\
  at_risk e = isin ["AT RISK"; "CRITICAL"]%string (entry_status e).
Proof.
  intro Hin. unfold risk_overview in Hin.
  apply in_map_iff in Hin. destruct Hin as [sid [<- Hsid]].
  cbn [entry_student_id entry_spi_score entry_status entry_status_color
       at_risk].
  apply (proj1 (group_keys_In Z.compare Z_cmp_eq _ _)) in Hsid.
  destruct (status_pair (rows_of_student df sid) p) as [Hs Hc].
  cbv zeta in Hs, Hc. cbv zeta.
  rewrite <- Hs, <- Hc. tauto.
Qed.

Lemma overview_ids df p :
  map entry_student_id (risk_overview df p)
  = group_keys Z.compare (map student_id df).
Proof.
  unfold risk_overview. rewrite map_map. cbn [entry_student_id].
  apply map_id.
Qed.

(** X8. The risk overview holds exactly one entry per student of the
    frame, by ascending student id: its ids are distinct, ascending, and
    are the ids that occur in the frame, and the number of students it
    reports is its number of entries, the number of distinct ids. *)
Theorem X8_one_entry_per_student (df : DataFrame) (p : Q) :
  let student_avg := risk_overview df p in
  NoDup (map entry_student_id student_avg) /\
  StronglySorted Z.lt (map entry_student_id student_avg) /\
  (forall sid, In sid (map entry_student_id student_avg)
               <-> In sid (map student_id df)) /\
  total_students student_avg = length student_avg /\
  length student_avg = length (nodup Z.eq_dec (map student_id df)).
Proof.
  cbv zeta. unfold total_students. rewrite overview_ids.
  assert (NoDup (group_keys Z.compare (map student_id df))) as Hnd
    by (apply group_keys_NoDup; Z_order).
  repeat match goal with |- _ /\ _ => split end.
  - exact Hnd.
  - apply (group_keys_sorted Z.compare); Z_order.
  - intro sid. apply group_keys_In. Z_order.
  - rewrite (nodup_fixed_point Z.eq_dec Hnd).
    now rewrite <- (overview_ids df p), length_map.
  - rewrite <- (length_map entry_student_id), (overview_ids df p).
    apply Permutation_length, group_keys_nodup; Z_order.
Qed.

Lemma overview_at_risk df p e :
  In e (risk_overview df p) ->
  at_risk e = Qltb (entry_spi_score e) 65 /\
  String.eqb (entry_status e) "CRITICAL" = Qltb (entry_spi_score e) 50.
Proof.
  intro Hin. destruct (overview_entry df p e Hin) as [_ H].
  cbv zeta in H. destruct H as [Hsc [Hst [_ Har]]].
  destruct (classify_facts (entry_spi_score e)) as [F1 [F2 _]].
  cbv zeta in F1, F2. rewrite Hsc in F1, F2. rewrite <- Hst in F1, F2.
  rewrite Har, Hsc. split; assumption.
Qed.

Lemma overview_lengths df p :
  total_students (risk_overview df p) = length (risk_overview df p) /\
  length (risk_overview df p)
  = (length (filter at_risk (risk_overview df p))
     + length (filter (fun e => negb (at_risk e)) (risk_overview df p)))%nat.
Proof.
  split; [|apply length_filter_split].
  unfold total_students. rewrite overview_ids.
  rewrite (nodup_fixed_point Z.eq_dec)
    by (apply group_keys_NoDup; Z_order).
  now rewrite <- (overview_ids df p), length_map.
Qed.

(** X9. In the risk overview the at-risk count never exceeds the number of
    students, so the number reported as passing is not negative; it is the
    number of students with a score of at least 65.  The students counted
    as CRITICAL are those with a score below 50, and there are at most as
    many of them as students at risk. *)
Theorem X9_overview_totals (df : DataFrame) (p : Q) :
  let student_avg := risk_overview df p in
  (at_risk_total student_avg <= total_students student_avg)%nat /\
  (0 <= passing_total student_avg)%Z /\
  passing_total student_avg
  = Z.of_nat
      (length (filter (fun e => Qgeb (entry_spi_score e) 65) student_avg)) /\
  critical_students student_avg
  = filter (fun e => Qltb (entry_spi_score e) 50) student_avg /\
  (length (critical_students student_avg) <= at_risk_total student_avg)%nat.
Proof.
  cbv zeta.
  destruct (overview_lengths df p) as [Htot Hsplit].
  unfold passing_total, at_risk_total, critical_students in *.
  assert (filter (fun e => negb (at_risk e)) (risk_overview df p)
          = filter (fun e => Qgeb (entry_spi_score e) 65) (risk_overview df p))
    as Hpass.
  { apply filter_ext_in. intros e He.
    destruct (overview_at_risk df p e He) as [-> _].
    unfold Qltb, Qgeb. now rewrite negb_involutive. }
  assert (filter (fun e => String.eqb (entry_status e) "CRITICAL")
                 (risk_overview df p)
          = filter (fun e => Qltb (entry_spi_score e) 50) (risk_overview df p))
    as Hcrit.
  { apply filter_ext_in. intros e He.
    now destruct (overview_at_risk df p e He) as [_ ->]. }
  rewrite <- Hpass, Htot, Hsplit.
  repeat match goal with |- _ /\ _ => split end; try lia; try assumption.
  rewrite Hcrit. apply filter_length_le.
  intros e He H. destruct (overview_at_risk df p e He) as [-> _].
  apply Qltb_true in H. apply Qltb_true. lra.
Qed.

(** ** The status pie *)

Lemma getitem_map_keys {V : Type} (f : string -> V) (keys : list string) s :
  In s keys -> getitem (map (fun k => (k, f k)) keys) s = Some (f s).
Proof.
  induction keys as [|k keys IH]; intro Hin; [destruct Hin|].
  cbn [map getitem]. destruct (String.eqb_spec k s) as [->|Hne].
  - reflexivity.
  - apply IH. destruct Hin; [congruence | assumption].
Qed.

Lemma existsb_eqb_In (s : string) (l : list string) :
  existsb (String.eqb s) l = true <-> In s l.
Proof.
  rewrite existsb_exists. split.
  - intros [x [Hx E]]. apply String.eqb_eq in E. now subst.
  - intro H. exists s. split; [assumption | apply String.eqb_refl].
Qed.

Lemma value_counts_index (l : list string) (s : string) :
  existsb (String.eqb s) (map fst (value_counts l)) = true <-> In s l.
Proof.
  unfold value_counts. rewrite map_map. cbn [fst]. rewrite map_id.
  rewrite existsb_eqb_In. apply group_keys_In. string_order.
Qed.

Lemma value_counts_getitem (l : list string) (s : string) :
  In s l -> getitem (value_counts l) s = Some (count_occ string_dec l s).
Proof.
  intro H. unfold value_counts.
  apply (getitem_map_keys (count_occ string_dec l)).
  apply group_keys_In; [string_order | assumption].
Qed.

Lemma list_sum_cons (x : nat) (l : list nat) :
  list_sum (x :: l) = (x + list_sum l)%nat.
Proof. reflexivity. Qed.

Lemma list_sum_filter {A : Type} (c : A -> nat) (b : A -> bool) (l : list A) :
  (forall a, In a l -> b a = false -> c a = 0%nat) ->
  list_sum (map c (filter b l)) = list_sum (map c l).
Proof.
  induction l as [|a l IH]; intro H; [reflexivity|].
  assert (list_sum (map c (filter b l)) = list_sum (map c l)) as IH'
    by (apply IH; intros; apply H; [now right | assumption]).
  cbn [filter map]. rewrite list_sum_cons. destruct (b a) eqn:E.
  - cbn [map]. now rewrite list_sum_cons, IH'.
  - now rewrite IH', (H a (or_introl eq_refl) E).
Qed.

Lemma indicator_zero (ord : list string) (k : string) :
  ~ In k ord ->
  list_sum (map (fun s => if string_dec k s then 1 else 0)%nat ord) = 0%nat.
Proof.
  induction ord as [|k' ord IH]; intro Hk; [reflexivity|].
  cbn [map]. rewrite list_sum_cons.
  destruct (string_dec k k') as [->|_].
  - exfalso. apply Hk. now left.
  - rewrite IH; [reflexivity|]. intro H. apply Hk. now right.
Qed.

Lemma indicator_sum (ord : list string) (x : string) :
  NoDup ord -> In x ord ->
  list_sum (map (fun s => if string_dec x s then 1 else 0)%nat ord) = 1%nat.
Proof.
  induction 1 as [|k ord Hk Hnd IH]; intro Hin; [destruct Hin|].
  cbn [map]. rewrite list_sum_cons.
  destruct (string_dec x k) as [->|Hne].
  - now rewrite indicator_zero.
  - destruct Hin as [E|Hin]; [congruence|]. now rewrite IH.
Qed.

Lemma counts_nil (ord : list string) :
  list_sum (map (count_occ string_dec []) ord) = 0%nat.
Proof.
  induction ord as [|k ord IH]; [reflexivity|].
  cbn [map]. now rewrite list_sum_cons, IH.
Qed.

Lemma counts_cons (ord : list string) (x : string) (l : list string) :
  list_sum (map (count_occ string_dec (x :: l)) ord)
  = (list_sum (map (fun s => if string_dec x s then 1 else 0)%nat ord)
     + list_sum (map (count_occ string_dec l) ord))%nat.
Proof.
  induction ord as [|k ord IH]; [reflexivity|].
  cbn [map]. rewrite !list_sum_cons, IH. cbn [count_occ].
  destruct (string_dec x k); lia.
Qed.

Lemma counts_sum (ord l : list string) :
  NoDup ord -> (forall x, In x l -> In x ord) ->
  list_sum (map (count_occ string_dec l) ord) = length l.
Proof.
  intros Hnd. induction l as [|x l IH]; intro Hin.
  - apply counts_nil.
  - rewrite counts_cons, indicator_sum, IH; try assumption.
    + reflexivity.
    + intros y Hy. apply Hin. now right.
    + apply Hin. now left.
Qed.

Lemma status_order_NoDup : NoDup status_order.
Proof.
  unfold status_order.
  repeat constructor; cbn; intuition discriminate.
Qed.

Lemma overview_statuses df p s :
  In s (map entry_status (risk_overview df p)) -> In s status_order.
Proof.
  intro H. apply in_map_iff in H. destruct H as [e [<- He]].
  destruct (overview_entry df p e He) as [_ H]. cbv zeta in H.
  destruct H as [_ [-> _]]. apply classify_facts.
Qed.

(** X10. In the status pie the labels are the statuses that occur among the
    students, every label has its count (no lookup fails) and the count is
    at least 1, the counts add up to the number of students, and the color
    of the map for a student's status is the color the engine returned for
    that student. *)
Theorem X10_status_pie (df : DataFrame) (p : Q) :
  let student_avg := risk_overview df p in
  let statuses := map entry_status student_avg in
  let status_counts := value_counts statuses in
  (forall s, In s (status_labels status_counts) <-> In s statuses) /\
  status_values status_counts
  = map (fun s => Some (count_occ string_dec statuses s))
        (status_labels status_counts) /\
  (forall s, In s (status_labels status_counts) ->
             (1 <= count_occ string_dec statuses s)%nat) /\
  list_sum (map (count_occ string_dec statuses) (status_labels status_counts))
  = length student_avg /\
  (forall e, In e student_avg ->
             getitem status_colors_map (entry_status e)
             = Some (entry_status_color e)).
Proof.
  intros student_avg statuses status_counts.
  assert (forall s, In s (status_labels status_counts) <-> In s statuses)
    as Hlab.
  { intro s. unfold status_labels, status_counts.
    rewrite filter_In, value_counts_index. split; [tauto|].
    intro H. split; [|assumption]. now apply (overview_statuses df p). }
  repeat match goal with |- _ /\ _ => split end.
  - exact Hlab.
  - unfold status_values. apply map_ext_in. intros s Hs.
    apply value_counts_getitem. now apply Hlab.
  - intros s Hs. apply Hlab in Hs.
    apply (count_occ_In string_dec) in Hs. lia.
  - unfold status_labels. rewrite list_sum_filter.
    + rewrite counts_sum.
      * unfold statuses. apply length_map.
      * apply status_order_NoDup.
      * apply (overview_statuses df p).
    + intros s _ Hs. apply (count_occ_not_In string_dec).
      intro Hin. apply value_counts_index in Hin.
      unfold status_counts in Hs. congruence.
  - intros e He. destruct (overview_entry df p e He) as [_ H].
    cbv zeta in H. destruct H as [_ [-> [-> _]]]. apply classify_facts.
Qed.

(** ** The student lookup *)

Lemma count_split {K : Type} (s : list (K * Q)) (x : Q) :
  (count_at_least s x + Series.count_below s x)%nat = length s.
Proof.
  unfold count_at_least, Series.count_below.
  rewrite (length_filter_split (fun kv => Qgeb (snd kv) x) s).
  reflexivity.
Qed.

(** X12. The lookup answers "no student found" exactly for the ids that do
    not occur in the frame.  Otherwise it shows the engine's result on the
    rows of that student, the passing courses and the failed courses of the
    breakdown add up to the total, which is the number of distinct courses
    of the student and at least 1, and the academic and attendance
    components of the breakdown are 0.60 and 0.25 times the averages
    shown. *)
Theorem X12_student_lookup (df : DataFrame) (p : Q) (sid : Z) :
  (student_lookup df p sid = None <-> ~ In sid (map student_id df)) /\
  (forall lk,
      student_lookup df p sid = Some lk ->
      let student_data := rows_of_student df sid in
      let d := details (lookup_spi lk) in
      (forall r, In r student_data <-> In r df /\ student_id r = sid) /\
      lookup_spi lk = calculate_student_performance_index student_data p /\
      (lookup_passing_courses lk + failed_courses d)%nat
      = lookup_total_courses lk /\
      lookup_total_courses lk
      = length (nodup string_dec (map course_name student_data)) /\
      (1 <= lookup_total_courses lk)%nat /\
      academic_component d = lookup_avg_score lk * 0.60 /\
      attendance_component d = lookup_avg_attendance lk * 0.25).
Proof.
  split.
  - unfold student_lookup. cbv zeta.
    destruct (rows_of_student df sid) as [|r rows] eqn:E.
    + split; [intros _ Hin | reflexivity].
      now apply (rows_of_student_nonempty df sid Hin).
    + split; [discriminate|]. intro Hno. exfalso. apply Hno.
      assert (In r (rows_of_student df sid)) as Hr by (rewrite E; now left).
      apply filter_In in Hr. destruct Hr as [Hr Hid].
      apply Z.eqb_eq in Hid. subst sid. now apply in_map.
  - intros lk Hlk student_data d. subst d student_data.
    unfold student_lookup in Hlk. cbv zeta in Hlk.
    assert (forall r', In r' (rows_of_student df sid)
                       <-> In r' df /\ student_id r' = sid) as Hrows.
    { intro r'. unfold rows_of_student. rewrite filter_In, Z.eqb_eq.
      reflexivity. }
    destruct (rows_of_student df sid) as [|r rows]; [discriminate|].
    set (student_data := r :: rows) in *.
    assert (lk = mkLookup
                   (Series.mean (map assessment_score student_data))
                   (Series.mean (map attendance_rate student_data))
                   (Series.mean (map raised_hand_count student_data))
                   (student_name r) (class_level r)
                   (calculate_student_performance_index student_data p)
                   (count_at_least
                      (groupby_mean String_as_OT.compare course_name
                         assessment_score student_data) p)
                   (length
                      (groupby_mean String_as_OT.compare course_name
                         assessment_score student_data))) as ->
      by congruence.
    cbn [lookup_spi lookup_passing_courses lookup_total_courses
         lookup_avg_score lookup_avg_attendance].
    assert (length (groupby_mean String_as_OT.compare course_name
                      assessment_score student_data)
            = length (nodup string_dec (map course_name student_data)))
      as Hlen.
    { unfold groupby_mean. rewrite length_map.
      apply Permutation_length, group_keys_nodup; string_order. }
    repeat match goal with |- _ /\ _ => split end.
    + exact Hrows.
    + reflexivity.
    + rewrite failed_courses_eq. apply count_split.
    + exact Hlen.
    + rewrite Hlen.
      assert (In (course_name r)
                 (nodup string_dec (map course_name student_data)))
        as Hin by (apply nodup_In, in_map; now left).
      destruct (nodup string_dec (map course_name student_data));
        [destruct Hin | simpl; lia].
    + apply academic_component_eq.
    + apply attendance_component_eq.
Qed.

Lemma X12_student_lookup_witness :
  student_lookup cohort_rows 60 99 = None /\
  exists lk,
    student_lookup cohort_rows 60 3 = Some lk /\
    (lookup_passing_courses lk + failed_courses (details (lookup_spi lk)))%nat
    = lookup_total_courses lk.
Proof.
  split.
  - apply (X12_student_lookup cohort_rows 60 99). cbn. intuition discriminate.
  - destruct (student_lookup cohort_rows 60 3) as [lk|] eqn:E;
      [|vm_compute in E; discriminate].
    exists lk. split; [reflexivity|].
    destruct (X12_student_lookup cohort_rows 60 3) as [_ H].
    destruct (H lk E) as [_ [_ [H3 _]]]. exact H3.
Defined.

(** ** Bins *)

Lemma Qle_bool_false a b : b < a -> Qle_bool a b = false.
Proof. intro H. now apply (Qgeb_false b a). Qed.

Lemma Qeq_bool_false a b : ~ a == b -> Qeq_bool a b = false.
Proof.
  intro H. destruct (Qeq_bool a b) eqn:E; [|reflexivity].
  apply Qeq_bool_iff in E. contradiction.
Qed.

Ltac eval_cmp :=
  repeat match goal with
  | |- context [Qltb ?a ?b] =>
      first [ rewrite (proj2 (Qltb_true a b)) by lra
            | rewrite (proj2 (Qltb_false a b)) by lra ]
  | |- context [Qle_bool ?a ?b] =>
      first [ rewrite (proj2 (Qle_bool_iff a b)) by lra
            | rewrite (Qle_bool_false a b) by lra ]
  | |- context [Qeq_bool ?a ?b] =>
      first [ rewrite (proj2 (Qeq_bool_iff a b)) by lra
            | rewrite (Qeq_bool_false a b) by lra ]
  end;
  cbn [andb hd_error].

Ltac close_bins :=
  repeat match goal with |- _ /\ _ => split end;
  split; intro;
  first [ reflexivity | discriminate | lra | (left; lra) | (right; lra)
        | (exfalso; lra)
        | (exfalso;
           match goal with H : _ \/ _ |- _ => destruct H; lra end) ].

Lemma score_range_spec (x : Q) :
  (score_range x = Some "0-40"%string <-> 0 <= x <= 40) /\
  (score_range x = Some "40-60"%string <-> 40 < x <= 60) /\
  (score_range x = Some "60-80"%string <-> 60 < x <= 80) /\
  (score_range x = Some "80-100"%string <-> 80 < x <= 100) /\
  (score_range x = None <-> x < 0 \/ 100 < x).
Proof.
  unfold score_range, cut, score_labels, cut_from.
  destruct (Qlt_le_dec x 0); [eval_cmp; close_bins|].
  destruct (Qlt_le_dec 0 x).
  2: { assert (x == 0) by lra. eval_cmp. close_bins. }
  destruct (Qlt_le_dec 40 x); [|eval_cmp; close_bins].
  destruct (Qlt_le_dec 60 x); [|eval_cmp; close_bins].
  destruct (Qlt_le_dec 80 x); [|eval_cmp; close_bins].
  destruct (Qlt_le_dec 100 x); eval_cmp; close_bins.
Qed.

(** X13. The score histogram puts a score in "0-40" exactly when it lies in
    [0, 40] (0 included), in "40-60", "60-80" and "80-100" exactly when it
    lies in (40, 60], (60, 80] and (80, 100], and in no bar exactly when it
    is negative or above 100.  So a score of exactly 60, which counts as
    passing, is shown in the "40-60" bar. *)
Theorem X13_score_range_bins (x : Q) :
  (score_range x = Some "0-40"%string <-> 0 <= x <= 40) /\
  (score_range x = Some "40-60"%string <-> 40 < x <= 60) /\
  (score_range x = Some "60-80"%string <-> 60 < x <= 80) /\
  (score_range x = Some "80-100"%string <-> 80 < x <= 100) /\
  (score_range x = None <-> x < 0 \/ 100 < x) /\
  (forall r, assessment_score r == 60 ->
             is_passing 60 r = true /\
             score_range (assessment_score r) = Some "40-60"%string).
Proof.
  destruct (score_range_spec x) as [H1 [H2 [H3 [H4 H5]]]].
  repeat match goal with |- _ /\ _ => split end; try assumption.
  intros r E. split.
  - apply Qgeb_true. lra.
  - apply (score_range_spec (assessment_score r)). lra.
Qed.

(** X14. An attendance rate is charted under "40-60%" exactly when it lies
    in (0, 60] and under "80-100%" exactly when it lies in (60, 100]; a
    rate of 0 or above 100 is in neither group. *)
Theorem X14_attendance_bins (x : Q) :
  (attendance_bins x = Some "40-60%"%string <-> 0 < x <= 60) /\
  (attendance_bins x = Some "80-100%"%string <-> 60 < x <= 100) /\
  (attendance_bins x = None <-> x <= 0 \/ 100 < x).
Proof.
  unfold attendance_bins, cut, cut_from.
  destruct (Qlt_le_dec 0 x); [|eval_cmp; close_bins].
  destruct (Qlt_le_dec 60 x); [|eval_cmp; close_bins].
  destruct (Qlt_le_dec 100 x); eval_cmp; close_bins.
Qed.

(** X15. A raised-hand count is charted under "Low (0-15)" exactly when it
    lies in (0, 15] and under "High (30+)" exactly when it lies in
    (15, 30]; a count of 0, and any count above 30, is in neither group. *)
Theorem X15_participation_bins (x : Q) :
  (participation_bins x = Some "Low (0-15)"%string <-> 0 < x <= 15) /\
  (participation_bins x = Some "High (30+)"%string <-> 15 < x <= 30) /\
  (participation_bins x = None <-> x <= 0 \/ 30 < x).
Proof.
  unfold participation_bins, cut, cut_from.
  destruct (Qlt_le_dec 0 x); [|eval_cmp; close_bins].
  destruct (Qlt_le_dec 15 x); [|eval_cmp; close_bins].
  destruct (Qlt_le_dec 30 x); eval_cmp; close_bins.
Qed.

Lemma score_range_label (x : Q) (l : string) :
  score_range x = Some l -> In l score_labels.
Proof.
  unfold score_range, cut, score_labels, cut_from.
  destruct (Qlt_le_dec x 0); [eval_cmp; discriminate|].
  destruct (Qlt_le_dec 0 x).
  2: { assert (x == 0) by lra. eval_cmp.
       intro Hl; injection Hl as <-; cbn; tauto. }
  destruct (Qlt_le_dec 40 x);
    [|eval_cmp; intro Hl; injection Hl as <-; cbn; tauto].
  destruct (Qlt_le_dec 60 x);
    [|eval_cmp; intro Hl; injection Hl as <-; cbn; tauto].
  destruct (Qlt_le_dec 80 x);
    [|eval_cmp; intro Hl; injection Hl as <-; cbn; tauto].
  destruct (Qlt_le_dec 100 x); eval_cmp;
    [discriminate | intro Hl; injection Hl as <-; cbn; tauto].
Qed.

Lemma bar_count (df : DataFrame) (lab : string) :
  length
    (filter (fun r =>
               match score_range (assessment_score r) with
               | Some l => String.eqb l lab
               | None => false
               end)
            df)
  = count_occ string_dec (score_range_column df) lab.
Proof.
  induction df as [|r df IH]; [reflexivity|].
  cbn [filter score_range_column flat_map].
  fold (score_range_column df).
  destruct (score_range (assessment_score r)) as [l|]; cbn [app].
  - cbn [count_occ].
    destruct (String.eqb_spec l lab) as [E|E], (string_dec l lab) as [E'|E'];
      try congruence; cbn [length]; now rewrite IH.
  - exact IH.
Qed.

Lemma score_range_column_length (df : DataFrame) :
  length (score_range_column df)
  = length
      (filter (fun r => Qle_bool 0 (assessment_score r)
                        && Qle_bool (assessment_score r) 100)
              df).
Proof.
  induction df as [|r df IH]; [reflexivity|].
  cbn [filter score_range_column flat_map].
  fold (score_range_column df).
  rewrite length_app, IH.
  destruct (score_range_spec (assessment_score r)) as [_ [_ [_ [_ H]]]].
  destruct (score_range (assessment_score r)) as [l|].
  - assert (0 <= assessment_score r <= 100) as [H0 H100].
    { destruct (Qlt_le_dec (assessment_score r) 0) as [Hlt|Hge];
        [assert (Some l = None) by (apply H; now left); discriminate|].
      destruct (Qlt_le_dec 100 (assessment_score r)) as [Hlt|Hle];
        [assert (Some l = None) by (apply H; now right); discriminate|].
      now split. }
    apply Qle_bool_iff in H0, H100. rewrite H0, H100. reflexivity.
  - destruct (proj1 H eq_refl) as [Hlt|Hlt].
    + rewrite (Qle_bool_false 0 (assessment_score r) Hlt). reflexivity.
    + rewrite (Qle_bool_false (assessment_score r) 100 Hlt), andb_false_r.
      reflexivity.
Qed.

(** X16. The score histogram always has the four bars "0-40", "40-60",
    "60-80", "80-100" in this order, empty ones included, and their heights
    add up to the number of assessments whose score lies in [0, 100]:
    assessments scored outside this range are in no bar. *)
Theorem X16_score_histogram_total (df : DataFrame) :
  map fst (score_dist df) = score_labels /\
  list_sum (map snd (score_dist df))
  = length
      (filter (fun r => Qle_bool 0 (assessment_score r)
                        && Qle_bool (assessment_score r) 100)
              df) /\
  ((forall r, In r df -> 0 <= assessment_score r <= 100) ->
   list_sum (map snd (score_dist df)) = length df).
Proof.
  assert (list_sum (map snd (score_dist df))
          = length
              (filter (fun r => Qle_bool 0 (assessment_score r)
                                && Qle_bool (assessment_score r) 100)
                      df)) as Hsum.
  { unfold score_dist. rewrite map_map. cbn [snd].
    rewrite (map_ext _ (count_occ string_dec (score_range_column df)))
      by (intro lab; apply bar_count).
    rewrite counts_sum.
    - apply score_range_column_length.
    - unfold score_labels. repeat constructor; cbn; intuition discriminate.
    - intros l Hl. unfold score_range_column in Hl.
      apply in_flat_map in Hl. destruct Hl as [r [_ Hl]].
      destruct (score_range (assessment_score r)) as [l'|] eqn:E;
        [|destruct Hl].
      destruct Hl as [<-|[]]. now apply (score_range_label _ _ E). }
  split; [reflexivity|]. split; [exact Hsum|].
  intro Hall. rewrite Hsum. f_equal.
  apply forallb_filter_id. apply forallb_forall. intros r Hr.
  destruct (Hall r Hr) as [H0 H100].
  apply Qle_bool_iff in H0, H100. now rewrite H0, H100.
Qed.

Lemma X16_score_histogram_total_witness :
  (forall r, In r cohort_rows -> 0 <= assessment_score r <= 100) /\
  list_sum (map snd (score_dist cohort_rows)) = length cohort_rows.
Proof.
  assert (forall r, In r cohort_rows -> 0 <= assessment_score r <= 100)
    as Hall.
  { intros r Hr. cbn in Hr.
    repeat (destruct Hr as [<-|Hr]; [cbn; split; discriminate|]).
    destruct Hr. }
  split; [exact Hall|].
  destruct (X16_score_histogram_total cohort_rows) as [_ [_ H]].
  exact (H Hall).
Defined.

(** ** The automated insights *)

Lemma insert_desc_perm kv l : Permutation (insert_desc kv l) (kv :: l).
Proof.
  induction l as [|x t IH]; cbn [insert_desc]; [reflexivity|].
  destruct (Qltb (snd kv) (snd x)); [|reflexivity].
  rewrite IH. apply perm_swap.
Qed.

Lemma sort_values_desc_perm l : Permutation (sort_values_desc l) l.
Proof.
  induction l as [|x t IH]; [reflexivity|].
  cbn [sort_values_desc fold_right]. fold (sort_values_desc t).
  rewrite insert_desc_perm. now constructor.
Qed.

Ltac by_seg H := solve [ repeat (destruct H as [H|H]; [congruence|]); congruence ].

(** ** The class tabs of the at-risk students *)

Lemma merge_rows (f : Z -> StudentAgg) (g : Z -> SpiEntry) (keys : list Z) :
  NoDup keys ->
  (forall k, agg_student_id (f k) = k) ->
  (forall k, entry_student_id (g k) = k) ->
  merge (map f keys) (map g keys) = map (fun k => (f k, g k)) keys.
Proof.
  intros Hnd Hf Hg. unfold merge.
  assert (forall k, In k keys ->
            filter (fun e => (entry_student_id e =? k)%Z) (map g keys)
            = [g k]) as Hone.
  { intros k Hk. induction Hnd as [|a l Ha Hnd IH]; [destruct Hk|].
    cbn [map filter]. rewrite Hg.
    destruct (Z.eqb_spec a k) as [->|Hne].
    - f_equal. clear IH Hk Hnd.
      induction l as [|b l IH]; [reflexivity|].
      cbn [map filter]. rewrite Hg.
      destruct (Z.eqb_spec b k) as [->|_].
      + exfalso. apply Ha. now left.
      + apply IH. intro H. apply Ha. now right.
    - apply IH. destruct Hk; [congruence | assumption]. }
  assert (forall ks, (forall k, In k ks -> In k keys) ->
            flat_map
              (fun a => map (pair a)
                 (filter (fun e => (entry_student_id e =? agg_student_id a)%Z)
                         (map g keys)))
              (map f ks)
            = map (fun k => (f k, g k)) ks) as Hall.
  { induction ks as [|k ks IH]; intro Hin; [reflexivity|].
    cbn [map flat_map]. rewrite Hf, (Hone k) by (apply Hin; now left).
    cbn [map app]. f_equal. apply IH. intros k' Hk'. apply Hin. now right. }
  apply Hall. auto.
Qed.

Lemma student_avg_merged_eq df p :
  student_avg_merged df p = combine (student_agg df) (risk_overview df p).
Proof.
  unfold student_avg_merged, student_agg, risk_overview.
  rewrite merge_rows.
  - symmetry.
    induction (group_keys Z.compare (map student_id df)) as [|k ks IH];
      [reflexivity|].
    cbn [map combine]. now rewrite IH.
  - apply group_keys_NoDup; Z_order.
  - reflexivity.
  - reflexivity.
Qed.

Lemma student_avg_merged_snd df p :
  map snd (student_avg_merged df p) = risk_overview df p.
Proof.
  rewrite student_avg_merged_eq.
  assert (length (student_agg df) = length (risk_overview df p)) as Hlen
    by (unfold student_agg, risk_overview; now rewrite !length_map).
  revert Hlen.
  generalize (student_agg df), (risk_overview df p).
  induction l as [|a l IH]; intros [|e l'] Hlen; try discriminate;
    [reflexivity|].
  cbn [combine map snd]. f_equal. apply IH. now injection Hlen.
Qed.

Lemma filter_and {A : Type} (f g : A -> bool) (l : list A) :
  filter (fun x => f x && g x) l = filter f (filter g l).
Proof.
  induction l as [|a l IH]; [reflexivity|].
  cbn [filter]. destruct (g a); cbn [filter];
    destruct (f a); cbn [andb]; now rewrite IH.
Qed.

Lemma filter_map_comm {A B : Type} (h : A -> B) (b : B -> bool) (l : list A) :
  filter b (map h l) = map h (filter (fun x => b (h x)) l).
Proof.
  induction l as [|a l IH]; [reflexivity|].
  cbn [map filter]. destruct (b (h a)); cbn [map]; now rewrite IH.
Qed.

Lemma class_count {A : Type} (c : A -> string) (l : list A) (cl : string) :
  length (filter (fun x => String.eqb (c x) cl) l)
  = count_occ string_dec (map c l) cl.
Proof.
  induction l as [|a l IH]; [reflexivity|].
  cbn [filter map count_occ].
  destruct (String.eqb_spec (c a) cl) as [E|E], (string_dec (c a) cl) as [E'|E'];
    try congruence; cbn [length]; now rewrite IH.
Qed.

(** X18. After the merge the summary has exactly the students of the risk
    overview, once each and in the same order, every row pairing the two
    records of one id.  For any sort that permutes the rows, the numbers of
    students listed in the class tabs add up to the at-risk total, and the
    at-risk chart has a bar exactly for the classes whose tab lists at
    least one student, with that number as its height. *)
Theorem X18_class_tabs
    (sort_by_spi_score :
       list (StudentAgg * SpiEntry) -> list (StudentAgg * SpiEntry))
    (df : DataFrame) (p : Q) :
  (forall l, Permutation (sort_by_spi_score l) l) ->
  let student_avg := student_avg_merged df p in
  map fst student_avg = student_agg df /\
  map snd student_avg = risk_overview df p /\
  (forall row, In row student_avg ->
               agg_student_id (fst row) = entry_student_id (snd row)) /\
  list_sum
    (map (fun cl =>
            length (at_risk_students sort_by_spi_score student_avg cl))
         (class_levels student_avg))
  = at_risk_total (risk_overview df p) /\
  (forall cl n,
      In (cl, n) (at_risk_by_class student_avg)
      <-> In cl (class_levels student_avg) /\
          n = length (at_risk_students sort_by_spi_score student_avg cl) /\
          (1 <= n)%nat).
Proof.
  intros Hperm student_avg.
  set (cls := fun row : StudentAgg * SpiEntry => agg_class_level (fst row)).
  set (risky := fun row : StudentAgg * SpiEntry => at_risk (snd row)).
  assert (forall cl,
             length (at_risk_students sort_by_spi_score student_avg cl)
             = length (filter (fun row => String.eqb (cls row) cl)
                              (filter risky student_avg))) as Htab.
  { intro cl. unfold at_risk_students.
    rewrite (Permutation_length (Hperm _)), <- filter_and.
    f_equal. apply filter_ext. intro row. unfold cls, risky.
    now destruct (at_risk (snd row)). }
  assert (forall cl, In cl (map cls (filter risky student_avg)) ->
                     In cl (class_levels student_avg)) as Hsub.
  { intros cl Hcl. unfold class_levels.
    apply group_keys_In; [string_order|].
    apply in_map_iff in Hcl. destruct Hcl as [row [<- Hrow]].
    apply filter_In in Hrow. apply (in_map cls). tauto. }
  repeat match goal with |- _ /\ _ => split end.
  - unfold student_avg. rewrite student_avg_merged_eq.
    assert (length (student_agg df) = length (risk_overview df p)) as Hlen
      by (unfold student_agg, risk_overview; now rewrite !length_map).
    revert Hlen. generalize (student_agg df), (risk_overview df p).
    induction l as [|a l IH]; intros [|e l'] Hlen; try discriminate;
      [reflexivity|].
    cbn [combine map fst]. f_equal. apply IH. now injection Hlen.
  - apply student_avg_merged_snd.
  - intros row Hrow. unfold student_avg, student_avg_merged, merge in Hrow.
    apply in_flat_map in Hrow. destruct Hrow as [a [_ Hrow]].
    apply in_map_iff in Hrow. destruct Hrow as [e [<- He]].
    apply filter_In in He. destruct He as [_ He].
    apply Z.eqb_eq in He. cbn [fst snd]. congruence.
  - rewrite (map_ext _ (count_occ string_dec
                          (map cls (filter risky student_avg))))
      by (intro cl; rewrite Htab; apply class_count).
    rewrite counts_sum.
    + rewrite length_map. unfold at_risk_total.
      rewrite <- (student_avg_merged_snd df p). fold student_avg.
      rewrite filter_map_comm, length_map. reflexivity.
    + apply group_keys_NoDup; string_order.
    + exact Hsub.
  - intros cl n. unfold at_risk_by_class. cbv zeta.
    fold risky. fold cls. rewrite in_map_iff. split.
    + intros [cl' [E Hcl']]. injection E as -> <-.
      apply (proj1 (group_keys_In String_as_OT.compare string_cmp_eq _ _))
        in Hcl'.
      split; [now apply Hsub|]. split; [now rewrite Htab|].
      rewrite class_count.
      assert (count_occ string_dec (map cls (filter risky student_avg)) cl
              > 0)%nat as Hpos by (now apply (count_occ_In string_dec)).
      unfold cls in Hpos. lia.
    + intros [_ [Hn H1]]. exists cl. rewrite Hn, Htab. split; [reflexivity|].
      apply group_keys_In; [string_order|].
      apply (count_occ_In string_dec). rewrite <- class_count, <- Htab. lia.
Qed.

Lemma sort_rows_id_perm (l : list (StudentAgg * SpiEntry)) :
  Permutation ((fun l => rev l) l) l.
Proof. symmetry. apply Permutation_rev. Qed.

(** The sample cohort, with the rows of a tab listed in reverse. *)
Lemma X18_class_tabs_witness :
  (forall l : list (StudentAgg * SpiEntry), Permutation (rev l) l) /\
  list_sum
    (map (fun cl =>
            length (at_risk_students (fun l => rev l)
                      (student_avg_merged cohort_rows 60) cl))
         (class_levels (student_avg_merged cohort_rows 60)))
  = at_risk_total (risk_overview cohort_rows 60).
Proof.
  split; [exact sort_rows_id_perm|].
  destruct (X18_class_tabs (fun l => rev l) cohort_rows 60 sort_rows_id_perm)
    as [_ [_ [_ [H _]]]].
  exact H.
Defined.

(** * The engine in rounded arithmetic *)

(** The exact engine is the rounded engine without rounding. *)
Lemma spi_with_exact df p :
  spi_with exact df p = calculate_student_performance_index df p.
Proof. reflexivity. Qed.

Ltac open_with :=
  unfold spi_with; cbv zeta;
  repeat match goal with
         | |- context [trend_with ?R ?x] => destruct (trend_with R x)
         | |- context [classify ?x] => destruct (classify x)
         end;
  reflexivity.

Lemma failed_courses_with R df p :
  failed_courses (details (spi_with R df p)) =
  Series.count_below
    (groupby_agg (group_mean R) String_as_OT.compare course_name
                 assessment_score df) p.
Proof. open_with. Qed.


Lemma trend_penalty_with R df p :
  trend_penalty (details (spi_with R df p)) =
  fst (trend_with R
         (groupby_agg (group_mean R) Z.compare assessment_no
                      assessment_score df)).
Proof. open_with. Qed.

Lemma performance_trend_with R df p :
  performance_trend (details (spi_with R df p)) =
  snd (trend_with R
         (groupby_agg (group_mean R) Z.compare assessment_no
                      assessment_score df)).
Proof. open_with. Qed.



Lemma status_with R df p :
  let r := spi_with R df p in
  status r = fst (classify (spi_score r)) /\
  status_color r = snd (classify (spi_score r)).
Proof.
  unfold spi_with; cbv zeta.
  destruct (trend_with R _).
  match goal with
  | |- context [classify ?x] => destruct (classify x) eqn:E
  end.
  cbn. rewrite E. split; reflexivity.
Qed.

(** ** The two groupbys of the engine *)

Lemma courses_performance_with (agg : list Q -> Q) df :
  groupby_agg agg String_as_OT.compare course_name assessment_score df
  = map (fun c => (c, agg (course_scores df c)))
        (group_keys String_as_OT.compare (map course_name df)).
Proof.
  unfold groupby_agg, course_scores. apply map_ext. intro c.
  now rewrite (get_group_filter String_as_OT.compare string_cmp_eq String.eqb
                 course_name c df String.eqb_eq).
Qed.

Lemma assessment_scores_with (agg : list Q -> Q) df :
  groupby_agg agg Z.compare assessment_no assessment_score df
  = map (fun n => (n, agg (assessment_scores_of df n)))
        (group_keys Z.compare (map assessment_no df)).
Proof.
  unfold groupby_agg, assessment_scores_of. apply map_ext. intro n.
  now rewrite (get_group_filter Z.compare Z_cmp_eq Z.eqb assessment_no n df
                 Z.eqb_eq).
Qed.

(** A Series indexed by the assessment numbers of the frame: its first and
    last values sit at the smallest and largest number. *)
Lemma keyed_series_ends (g : Z -> Q) df lo hi :
  In lo (map assessment_no df) -> In hi (map assessment_no df) ->
  (forall n, In n (map assessment_no df) -> (lo <= n <= hi)%Z) ->
  let s := map (fun n => (n, g n))
               (group_keys Z.compare (map assessment_no df)) in
  Series.iloc_first s = g lo /\
  Series.iloc_last s = g hi /\
  ((2 <=? length s)%nat = negb (lo =? hi)%Z).
Proof.
  intros Hlo Hhi Hb. cbv zeta.
  set (keys := group_keys Z.compare (map assessment_no df)).
  assert (StronglySorted (fun x y => (x ?= y)%Z = Lt) keys) as Hs
    by (apply group_keys_sorted; Z_order).
  assert (forall x, In x keys <-> In x (map assessment_no df)) as Hk
    by (intro x; apply group_keys_In; Z_order).
  assert (exists t, keys = lo :: t) as [t Ht].
  { apply sorted_first; [assumption | now apply Hk |].
    intros x Hx. apply Hk, Hb in Hx. lia. }
  assert (exists t', keys = t' ++ [hi]) as [t' Ht'].
  { apply sorted_last; [assumption | now apply Hk |].
    intros x Hx. apply Hk, Hb in Hx. lia. }
  split; [rewrite Ht; apply iloc_first_map|].
  split; [rewrite Ht'; apply (iloc_last_map g)|].
  rewrite length_map.
  destruct (Z.eqb_spec lo hi) as [E|E]; cbn [negb].
  - subst hi. apply Nat.leb_gt.
    destruct t as [|b t]; [rewrite Ht; simpl; lia|]. exfalso.
    rewrite Ht in Hs. apply StronglySorted_inv in Hs. destruct Hs as [_ Ha].
    rewrite Forall_forall in Ha. specialize (Ha b (or_introl eq_refl)).
    change (lo < b)%Z in Ha.
    assert (In b keys) as Hbk by (rewrite Ht; right; now left).
    apply Hk, Hb in Hbk. lia.
  - apply Nat.leb_le. rewrite Ht. destruct t as [|b t]; [|simpl; lia].
    exfalso. rewrite Ht in Ht'. destruct t' as [|c [|d t']]; try discriminate.
    injection Ht' as ->. congruence.
Qed.


Lemma trend_with_penalty R (s : list (Z * Q)) :
  (snd (trend_with R s) < -10 -> fst (trend_with R s) = 5%Z) /\
  (-10 <= snd (trend_with R s) -> fst (trend_with R s) = 0%Z).
Proof.
  unfold trend_with. destruct (2 <=? length s)%nat.
  - cbv zeta.
    case_Qltb (rnd R (Series.iloc_last s - Series.iloc_first s)) (-10);
      cbn [fst snd]; split; intro; try reflexivity; exfalso; lra.
  - cbn [fst snd]. split; intro; try reflexivity; exfalso; lra.
Qed.

Lemma failed_courses_count R df p :
  failed_courses (details (spi_with R df p))
  = length (failing_courses R df p).
Proof.
  rewrite failed_courses_with, courses_performance_with.
  rewrite (count_below_map (fun c => group_mean R (course_scores df c))).
  unfold failing_courses. apply filter_length_perm.
  apply group_keys_nodup; string_order.
Qed.


(** ** Rounding to nearest, ties to even, is monotone *)
























(** ** Raising every score, in rounded arithmetic *)





(** ** The exact arithmetic is monotone *)

Lemma sum_Forall2 (l l' : list Q) :
  Forall2 Qle l l' -> Series.sum l <= Series.sum l'.
Proof.
  induction 1 as [|x y l l' Hxy _ IH]; [apply Qle_refl|].
  cbn [Series.sum fold_right]. fold (Series.sum l) (Series.sum l'). lra.
Qed.

Lemma exact_monotone : Monotone exact.
Proof.
  constructor; cbn [rnd series_mean exact].
  - intros x y H. exact H.
  - reflexivity.
  - intros l l' H. unfold Series.mean.
    rewrite <- (Forall2_length H).
    destruct l as [|x l].
    + inversion H. apply Qle_refl.
    + apply Qmult_le_compat_r; [now apply sum_Forall2|].
      apply Qinv_le_0_compat, Qlt_le_weak, length_pos_Q. discriminate.
Qed.


(** ** The verdict on the assessment progression *)

(** X11. In any arithmetic, with [lo] and [hi] the smallest and largest
    assessment numbers of the frame, the dashboard reports an improving
    trend exactly when the computed mean score of assessment [hi] is
    strictly above that of assessment [lo], and a declining trend
    otherwise; in particular a frame with a single assessment number is
    reported as declining. *)
Theorem X11_overall_trend (R : Rounding) (df : DataFrame) (lo hi : Z) :
  In lo (map assessment_no df) -> In hi (map assessment_no df) ->
  (forall n, In n (map assessment_no df) -> (lo <= n <= hi)%Z) ->
  let mean_of := fun n => group_mean R (assessment_scores_of df n) in
  (trend R df = "improving"%string <-> mean_of lo < mean_of hi) /\
  (trend R df = "declining"%string <-> mean_of hi <= mean_of lo) /\
  (lo = hi -> trend R df = "declining"%string).
Proof.
  intros Hlo Hhi Hb mean_of.
  unfold trend, progression. rewrite assessment_scores_with.
  destruct (keyed_series_ends
              (fun n => group_mean R (assessment_scores_of df n))
              df lo hi Hlo Hhi Hb) as [Hf [Hl _]].
  cbv zeta in Hf, Hl. rewrite Hf, Hl. subst mean_of. cbv beta.
  case_Qltb (group_mean R (assessment_scores_of df lo))
            (group_mean R (assessment_scores_of df hi)).
  - repeat split; intros; try reflexivity; try discriminate; try lra.
    subst hi. lra.
  - repeat split; intros; try reflexivity; try discriminate; try lra.
Qed.

(** The run 80, 85, 60 over assessments 1 to 3, in binary64. *)
Lemma X11_overall_trend_witness :
  In 1%Z (map assessment_no declining_rows) /\
  In 3%Z (map assessment_no declining_rows) /\
  (forall n, In n (map assessment_no declining_rows) -> (1 <= n <= 3)%Z) /\
  trend binary64 declining_rows = "declining"%string.
Proof.
  assert (In 1%Z (map assessment_no declining_rows)) as H1
    by (cbn; tauto).
  assert (In 3%Z (map assessment_no declining_rows)) as H3
    by (cbn; tauto).
  assert (forall n, In n (map assessment_no declining_rows) ->
                    (1 <= n <= 3)%Z) as Hb
    by (intros n Hn; cbn in Hn; lia).
  split; [exact H1|]. split; [exact H3|]. split; [exact Hb|].
  destruct (X11_overall_trend binary64 declining_rows 1 3 H1 H3 Hb)
    as [_ [H _]].
  apply H. vm_compute. discriminate.
Defined.

(** ** The automated insights, in rounded arithmetic *)

Lemma trend_penalty_positive R df p :
  let d := details (spi_with R df p) in
  ((0 <? trend_penalty d)%Z = true <-> performance_trend d < -10).
Proof.
  cbv zeta. rewrite trend_penalty_with, performance_trend_with.
  destruct (trend_with_penalty R
              (groupby_agg (group_mean R) Z.compare assessment_no
                           assessment_score df))
    as [P5 P0].
  set (t := trend_with R _) in *.
  destruct (Qlt_le_dec (snd t) (-10)) as [H|H].
  - rewrite (P5 H). split; [now intros _ | reflexivity].
  - rewrite (P0 H). split; [discriminate | intro; lra].
Qed.

Lemma weak_course_names (R : Rounding)
    (sort_values : list (string * Q) -> list (string * Q))
    (df : DataFrame) (p : Q) :
  (forall l, Permutation (sort_values l) l) ->
  Permutation
    (map fst
       (filter (fun kv => Qltb (snd kv) p)
          (sort_values
             (groupby_agg (group_mean R) String_as_OT.compare course_name
                          assessment_score df))))
    (failing_courses R df p).
Proof.
  intro Hperm.
  rewrite (filter_perm _ _ _ (Hperm _)).
  rewrite courses_performance_with.
  set (keys := group_keys String_as_OT.compare (map course_name df)).
  assert (map fst
            (filter (fun kv : string * Q => Qltb (snd kv) p)
               (map (fun c => (c, group_mean R (course_scores df c))) keys))
          = filter (fun c => Qltb (group_mean R (course_scores df c)) p) keys)
    as ->.
  { induction keys as [|k keys IH]; [reflexivity|].
    cbn [map filter snd].
    destruct (Qltb (group_mean R (course_scores df k)) p);
      cbn [map fst]; now rewrite IH. }
  unfold failing_courses. apply filter_perm.
  apply group_keys_nodup; string_order.
Qed.

(** X17. The automated insights of a non-empty record set, in any
    arithmetic and for any sort of the course means that permutes them.  A
    declining trend is reported exactly when the performance change of the
    breakdown is below -10, an improving trend exactly when it is above 10.
    The critical status is reported exactly when the score is below 50.  An
    academic emergency is reported only when the computed mean score is
    below the passing score.  The failing-courses insight carries the
    failed-course count of the breakdown, which is at least 1, and lists
    that many course names, namely the courses whose computed mean is below
    the passing score.  Between four and seven insights are reported. *)
Theorem X17_insights_consistent (R : Rounding)
    (sort_values : list (string * Q) -> list (string * Q))
    (df : DataFrame) (p : Q) :
  (forall l, Permutation (sort_values l) l) ->
  df <> [] ->
  let insights := automated_insights R sort_values df p in
  let r := spi_with R df p in
  let d := details r in
  ((exists x, In (DecliningTrend x) insights) <-> performance_trend d < -10) /\
  ((exists x, In (ImprovingTrend x) insights) <-> 10 < performance_trend d) /\
  (In CriticalStatus insights <-> spi_score r < 50) /\
  (In AcademicEmergency insights ->
   series_mean R (map assessment_score df) < p) /\
  (forall n l,
      In (FailingCourses n l) insights ->
      n = failed_courses d /\ (1 <= n)%nat /\
      exists names,
        l = String.concat ", " names /\ length names = n /\
        Permutation names (failing_courses R df p)) /\
  (4 <= length insights <= 7)%nat.
Proof.
  intros Hperm Hne. cbv zeta. unfold automated_insights. cbv zeta.
  set (r := spi_with R df p).
  set (avg := series_mean R (map assessment_score df)).
  set (weak := map fst (filter _ (sort_values _))).
  match goal with
  | |- context [[?a] ++ [?b] ++ [?c] ++ [?g4] ++ ?e ++ ?f ++ ?g] =>
      set (s1 := a); set (s2 := b); set (s3 := c); set (s4 := g4);
      set (se := e); set (sf := f); set (sg := g)
  end.
  assert (s1 = ExcellentPerformance \/ s1 = SatisfactoryPerformance \/
          s1 = AtRisk \/ s1 = CriticalStatus) as H1.
  { unfold s1. repeat match goal with
                      | |- context [String.eqb ?a ?b] => destruct (String.eqb a b)
                      end; tauto. }
  assert (s1 = CriticalStatus <-> spi_score r < 50) as H1c.
  { unfold s1. destruct (status_with R df p) as [Hs _]. fold r in Hs.
    rewrite Hs.
    destruct (classify_bands (spi_score r)) as [B1 [B2 [B3 B4]]].
    destruct (Qlt_le_dec (spi_score r) 50);
      [rewrite B4 by lra; cbn; split; [intro; assumption | reflexivity]|].
    destruct (Qlt_le_dec (spi_score r) 65);
      [rewrite B3 by lra; cbn; split; [discriminate | intro; lra]|].
    destruct (Qlt_le_dec (spi_score r) 80);
      [rewrite B2 by lra; cbn; split; [discriminate | intro; lra]|].
    rewrite B1 by lra. cbn. split; [discriminate | intro; lra]. }
  assert (s2 = StrongAcademics \/ s2 = GoodAcademicStanding \/
          s2 = BorderlinePerformance \/ s2 = AcademicEmergency) as H2.
  { unfold s2. repeat match goal with
                      | |- context [Qgeb ?a ?b] => destruct (Qgeb a b)
                      end; tauto. }
  assert (s2 = AcademicEmergency -> avg < p) as H2e.
  { unfold s2.
    destruct (Qgeb avg 80); [discriminate|].
    destruct (Qgeb avg 70); [discriminate|].
    destruct (Qgeb avg p) eqn:E; [discriminate|].
    intros _. now apply Qgeb_false in E. }
  assert (s3 = ExcellentAttendance \/ s3 = GoodAttendance \/
          s3 = AttendanceConcern \/ s3 = PoorAttendance) as H3.
  { unfold s3. repeat match goal with
                      | |- context [Qgeb ?a ?b] => destruct (Qgeb a b)
                      end; tauto. }
  assert (s4 = HighlyEngaged \/ s4 = ModerateEngagement \/
          s4 = LowEngagement) as H4.
  { unfold s4. repeat match goal with
                      | |- context [Qgeb ?a ?b] => destruct (Qgeb a b)
                      end; tauto. }
  assert ((se = [DecliningTrend (py_abs (performance_trend (details r)))] /\
           performance_trend (details r) < -10) \/
          (se = [ImprovingTrend (performance_trend (details r))] /\
           10 < performance_trend (details r)) \/
          (se = [] /\ -10 <= performance_trend (details r) <= 10)) as He.
  { unfold se. pose proof (trend_penalty_positive R df p) as Htp.
    cbv zeta in Htp. fold r in Htp.
    destruct (0 <? trend_penalty (details r))%Z.
    - left. split; [reflexivity | now apply Htp].
    - assert (-10 <= performance_trend (details r)) as Hge.
      { destruct (Qlt_le_dec (performance_trend (details r)) (-10)) as [H|H];
          [|assumption].
        apply Htp in H. discriminate. }
      case_Qltb 10 (performance_trend (details r)).
      + right. left. split; [reflexivity | assumption].
      + right. right. split; [reflexivity | split; assumption]. }
  assert ((sf = [FailingCourses (failed_courses (details r))
                   (String.concat ", " weak)] /\
           (1 <= failed_courses (details r))%nat) \/
          (sf = [] /\ failed_courses (details r) = 0%nat)) as Hf.
  { unfold sf. destruct (Nat.ltb_spec 0 (failed_courses (details r))).
    - left. split; [reflexivity | lia].
    - right. split; [reflexivity | lia]. }
  assert (sg = [] \/ exists s, sg = [StrongSubjects s]) as Hg.
  { unfold sg.
    match goal with
    | |- context [if ?c then _ else _] => destruct c
    end; [right; eexists; reflexivity | now left]. }
  assert (forall t,
             In t ([s1] ++ [s2] ++ [s3] ++ [s4] ++ se ++ sf ++ sg)
             <-> s1 = t \/ s2 = t \/ s3 = t \/ s4 = t
                 \/ In t se \/ In t sf \/ In t sg) as Hin.
  { intro t. cbn [app In]. rewrite !in_app_iff. reflexivity. }
  assert (Permutation weak (failing_courses R df p)) as Hweak
    by (now apply weak_course_names).
  clearbody s1 s2 s3 s4 se sf sg weak.
  repeat match goal with |- _ /\ _ => split end.
  all: try match goal with |- _ <-> _ => split end.
  - (* declining, left to right *)
    intros [x Hx]. apply Hin in Hx.
    destruct Hx as [E|[E|[E|[E|[E|[E|E]]]]]];
      try by_seg H1; try by_seg H2; try by_seg H3; try by_seg H4.
    + destruct He as [[-> Hc]|[[-> Hc]|[-> Hc]]];
        [assumption | destruct E as [E|[]]; discriminate | destruct E].
    + destruct Hf as [[-> _]|[-> _]];
        [destruct E as [E|[]]; discriminate | destruct E].
    + destruct Hg as [->|[s ->]];
        [destruct E | destruct E as [E|[]]; discriminate].
  - (* declining, right to left *)
    intro Hlt. exists (py_abs (performance_trend (details r))).
    apply Hin. do 4 right. left.
    destruct He as [[-> _]|[[_ Hc]|[_ Hc]]]; [now left | lra | lra].
  - (* improving, left to right *)
    intros [x Hx]. apply Hin in Hx.
    destruct Hx as [E|[E|[E|[E|[E|[E|E]]]]]];
      try by_seg H1; try by_seg H2; try by_seg H3; try by_seg H4.
    + destruct He as [[-> Hc]|[[-> Hc]|[-> Hc]]];
        [destruct E as [E|[]]; discriminate | assumption | destruct E].
    + destruct Hf as [[-> _]|[-> _]];
        [destruct E as [E|[]]; discriminate | destruct E].
    + destruct Hg as [->|[s ->]];
        [destruct E | destruct E as [E|[]]; discriminate].
  - (* improving, right to left *)
    intro Hgt. exists (performance_trend (details r)).
    apply Hin. do 4 right. left.
    destruct He as [[_ Hc]|[[-> _]|[_ Hc]]]; [lra | now left | lra].
  - (* critical status, left to right *)
    intro Hx. apply Hin in Hx.
    destruct Hx as [E|[E|[E|[E|[E|[E|E]]]]]];
      try by_seg H2; try by_seg H3; try by_seg H4.
    + now apply H1c.
    + destruct He as [[-> Hc]|[[-> Hc]|[-> Hc]]];
        [destruct E as [E|[]]; discriminate
        | destruct E as [E|[]]; discriminate | destruct E].
    + destruct Hf as [[-> _]|[-> _]];
        [destruct E as [E|[]]; discriminate | destruct E].
    + destruct Hg as [->|[s ->]];
        [destruct E | destruct E as [E|[]]; discriminate].
  - (* critical status, right to left *)
    intro Hlt. apply Hin. left. now apply H1c.
  - (* academic emergency *)
    intro Hx. apply Hin in Hx.
    destruct Hx as [E|[E|[E|[E|[E|[E|E]]]]]];
      try by_seg H1; try by_seg H3; try by_seg H4.
    + now apply H2e.
    + destruct He as [[-> Hc]|[[-> Hc]|[-> Hc]]];
        [destruct E as [E|[]]; discriminate
        | destruct E as [E|[]]; discriminate | destruct E].
    + destruct Hf as [[-> _]|[-> _]];
        [destruct E as [E|[]]; discriminate | destruct E].
    + destruct Hg as [->|[s ->]];
        [destruct E | destruct E as [E|[]]; discriminate].
  - (* failing courses *)
    intros n l Hx. apply Hin in Hx.
    assert (length weak = failed_courses (details r)) as Hlen.
    { rewrite (Permutation_length Hweak). symmetry.
      apply failed_courses_count. }
    destruct Hx as [E|[E|[E|[E|[E|[E|E]]]]]];
      try by_seg H1; try by_seg H2; try by_seg H3; try by_seg H4.
    + destruct He as [[-> Hc]|[[-> Hc]|[-> Hc]]];
        [destruct E as [E|[]]; discriminate
        | destruct E as [E|[]]; discriminate | destruct E].
    + destruct Hf as [[-> Hc]|[-> _]]; [|destruct E].
      destruct E as [E|[]]. injection E as <- <-.
      split; [reflexivity|]. split; [assumption|].
      exists weak. repeat split; assumption.
    + destruct Hg as [->|[s ->]];
        [destruct E | destruct E as [E|[]]; discriminate].
  - (* at least four *)
    rewrite !length_app. cbn [length]. lia.
  - (* at most seven *)
    rewrite !length_app. cbn [length].
    assert (length se <= 1)%nat
      by (destruct He as [[-> _]|[[-> _]|[-> _]]]; simpl; lia).
    assert (length sf <= 1)%nat
      by (destruct Hf as [[-> _]|[-> _]]; simpl; lia).
    assert (length sg <= 1)%nat
      by (destruct Hg as [->|[s ->]]; simpl; lia).
    lia.
Qed.

(** The one-failure rows in binary64, with the insertion sort by
    descending score. *)
Lemma X17_insights_consistent_witness :
  (forall l, Permutation (sort_values_desc l) l) /\
  one_failure_rows <> [] /\
  (4 <= length (automated_insights binary64 sort_values_desc
                  one_failure_rows 60)
   <= 7)%nat.
Proof.
  split; [exact sort_values_desc_perm|]. split; [discriminate|].
  destruct (X17_insights_consistent binary64 sort_values_desc
              one_failure_rows 60 sort_values_desc_perm ltac:(discriminate))
    as [_ [_ [_ [_ [_ H]]]]].
  exact H.
Defined.
